(** * biautomate: the churn decision engine (main.py)

    A shallow embedding of [main.py] and the properties of its decision
    rules.  Python's [float] is IEEE 754 binary64; it is modelled by the
    Standard Library's [spec_float] with the binary64 parameters, so that
    every arithmetic step and every comparison is the rounded one the
    interpreter performs.  The module-level dictionary
    [CHURN_DECISION_THRESHOLDS] lives in an explicit program state, and
    the functions of [main.py] run in a state-and-exception monad over
    that state. *)

From Stdlib Require Import ZArith Lia Bool.
From Stdlib Require Import Floats.SpecFloat.
From stdpp Require Import gmap strings list fin_maps pretty.

Local Open Scope Z_scope.

(** ** Binary64 floating point *)

Module Float.

Definition prec : Z := 53.
Definition emax : Z := 1024.

Abbreviation float := spec_float.

(** [float(n)] for a Python [int]: the integer rounded to nearest, ties
    to even.  An integer too large for binary64 rounds to an infinity
    here; the interpreter raises [OverflowError] for it, see
    [as_double] below. *)
Definition of_Z (n : Z) : float := binary_normalize prec emax n 0 false.

Definition mul (x y : float) : float := SFmul prec emax x y.
Definition add (x y : float) : float := SFadd prec emax x y.
Definition div (x y : float) : float := SFdiv prec emax x y.

(** Python's [x > y] on floats: false as soon as one side is a NaN. *)
Definition gt (x y : float) : bool :=
  match SFcompare x y with
  | Some Gt => true
  | _ => false
  end.

Definition lt (x y : float) : bool := SFltb x y.
Definition le (x y : float) : bool := SFleb x y.

Definition is_nan (x : float) : bool :=
  match x with S754_nan => true | _ => false end.

(** The decimal literals of [main.py], as the binary64 values the
    parser rounds them to. *)
Definition lit_0_75 : float := S754_finite false 6755399441055744 (-53).
Definition lit_0_50 : float := S754_finite false 4503599627370496 (-53).
Definition lit_0_2  : float := S754_finite false 7205759403792794 (-55).
Definition lit_0_01 : float := S754_finite false 5764607523034235 (-59).

(** Further literals used in the statements. *)
Definition lit_0_0  : float := S754_zero false.
Definition lit_1_0  : float := S754_finite false 4503599627370496 (-52).
Definition lit_1_5  : float := S754_finite false 6755399441055744 (-52).
Definition lit_neg_0_25 : float := S754_finite true 4503599627370496 (-54).
Definition lit_0_80 : float := S754_finite false 7205759403792794 (-53).
Definition lit_0_66 : float := S754_finite false 5944751508129055 (-53).
(** The float above [lit_0_66]; Python prints it [0.6600000000000001]. *)
Definition lit_0_6600000000000001 : float :=
  S754_finite false 5944751508129056 (-53).

End Float.

Import Float.

(** ** Enumerations and models (main.py, lines 12-38) *)

Inductive RecommendedAction :=
  | PROACTIVE_RETENTION
  | MONITOR_ACCOUNT
  | NO_ACTION.

Inductive ConfidenceLevel :=
  | HIGH
  | MEDIUM
  | LOW.

Definition RecommendedAction_value (a : RecommendedAction) : string :=
  match a with
  | PROACTIVE_RETENTION => "Proactive_Retention_Offer"
  | MONITOR_ACCOUNT => "Monitor_Account"
  | NO_ACTION => "No_Action_Needed"
  end.

Definition ConfidenceLevel_value (c : ConfidenceLevel) : string :=
  match c with
  | HIGH => "High"
  | MEDIUM => "Medium"
  | LOW => "Low"
  end.

(** A value of the [features] dictionary.  The field is declared as a bare
    [dict], so a request may carry any JSON value under any key. *)
#[warnings="-register-all"] Inductive pyvalue :=
  | PyNone
  | PyBool (b : bool)
  | PyInt (n : Z)
  | PyFloat (x : float)
  | PyStr (s : string)
  | PyList (items : list pyvalue)
  | PyDict (items : list (string * pyvalue)).

Module FeaturePayload.
Record t := Build {
  customer_id : string;
  features : gmap string pyvalue
}.
End FeaturePayload.

Module DecisionResponse.
Record t := Build {
  customer_id : string;
  churn_probability : float;
  recommended_action : RecommendedAction;
  confidence_level : ConfidenceLevel
}.
End DecisionResponse.

(** ** Exceptions *)

(** The exception classes the code can meet.  All of them derive from
    [Exception], so the handler of [decide] catches each one. *)
Inductive exn :=
  | KeyError (key : string)
  | TypeError (msg : string)
  | OverflowError (msg : string)
  | HTTPException (status_code : Z) (detail : string).

(** [str(e)], which is what the f-string of the handler interpolates. *)
Definition exn_str (e : exn) : string :=
  match e with
  | KeyError key => "'" +:+ key +:+ "'"
  | TypeError msg => msg
  | OverflowError msg => msg
  | HTTPException status_code detail => pretty status_code +:+ ": " +:+ detail
  end.

(** ** Program state and the monad of the embedding *)

(** One entry of [CHURN_DECISION_THRESHOLDS]: the inner dictionary with
    its three fixed keys. *)
Record rule := Rule {
  threshold : float;
  action : RecommendedAction;
  confidence : ConfidenceLevel
}.

(** What [logging.info] has written so far. *)
Inductive log_record :=
  | INFO_simulating (message : string)
  | INFO_decision (response : DecisionResponse.t).

Record state := State {
  CHURN_DECISION_THRESHOLDS : gmap string rule;
  log : list log_record
}.

(** A computation returns a value or raises, and in both cases leaves a
    state behind: what was logged before an exception stays logged. *)
Definition M (A : Type) : Type := state -> (exn + A) * state.

Definition ret {A} (a : A) : M A := fun s => (inr a, s).

Definition raise {A} (e : exn) : M A := fun s => (inl e, s).

Definition bind {A B} (m : M A) (k : A -> M B) : M B :=
  fun s =>
    match m s with
    | (inr a, s') => k a s'
    | (inl e, s') => (inl e, s')
    end.

(** [try: body except Exception as e: handler e]. *)
Definition try_except {A} (body : M A) (handler : exn -> M A) : M A :=
  fun s =>
    match body s with
    | (inr a, s') => (inr a, s')
    | (inl e, s') => handler e s'
    end.

Declare Scope py_scope.
Delimit Scope py_scope with py.
Notation "'let*' x ':=' m 'in' k" := (bind m (fun x => k))
  (at level 10, x name, m at level 100, k at level 200) : py_scope.
Notation "m ';;;' k" := (bind m (fun _ => k))
  (at level 100, k at level 200, right associativity) : py_scope.
Local Open Scope py_scope.

(** Reading the global name [CHURN_DECISION_THRESHOLDS]. *)
Definition load_thresholds : M (gmap string rule) :=
  fun s => (inr (CHURN_DECISION_THRESHOLDS s), s).

(** [d[key]]. *)
Definition getitem {V} (d : gmap string V) (key : string) : M V :=
  match d !! key with
  | Some v => ret v
  | None => raise (KeyError key)
  end.

(** [logging.info(...)]. *)
Definition logging_info (r : log_record) : M unit :=
  fun s => (inr tt, State (CHURN_DECISION_THRESHOLDS s) (log s ++ [r])).

(** The state after the module body of [main.py] has run (lines 58-61). *)
Definition startup_thresholds : gmap string rule :=
  <["high_risk" := Rule lit_0_75 PROACTIVE_RETENTION HIGH]>
  (<["medium_risk" := Rule lit_0_50 MONITOR_ACCOUNT MEDIUM]> ∅).

Definition startup : state := State startup_thresholds [].

(** ** Business logic for decisions (main.py, lines 83-94) *)

Definition make_churn_decision (probability : float)
  : M (RecommendedAction * ConfidenceLevel) :=
  let* table := load_thresholds in
  let* high := getitem table "high_risk" in
  if gt probability (threshold high) then
    let* table := load_thresholds in
    let* rule := getitem table "high_risk" in
    ret (action rule, confidence rule)
  else
    let* table := load_thresholds in
    let* medium := getitem table "medium_risk" in
    if gt probability (threshold medium) then
      let* table := load_thresholds in
      let* rule := getitem table "medium_risk" in
      ret (action rule, confidence rule)
    else
      ret (NO_ACTION, LOW).

(** ** Simulated model serving client (main.py, lines 65-80) *)

(** [d.get(key, default)]. *)
Definition dict_get {V} (d : gmap string V) (key : string) (default : V) : V :=
  match d !! key with
  | Some v => v
  | None => default
  end.

(** The left operand of [v * y], for a float [y], as a C double: a float
    as it is, an [int] (and a [bool], which is an [int]) converted with
    rounding to nearest; [None] for an [int] beyond the binary64 range and
    for every value that is not a number. *)
Definition as_double (v : pyvalue) : option float :=
  match v with
  | PyFloat x => Some x
  | PyInt n =>
      match of_Z n with
      | S754_infinity _ => None
      | x => Some x
      end
  | PyBool b => Some (of_Z (if b then 1 else 0))
  | _ => None
  end.

(** The exception [v * y] raises when [as_double v] is [None]. *)
Definition mul_float_error (v : pyvalue) : exn :=
  match v with
  | PyNone =>
      TypeError "unsupported operand type(s) for *: 'NoneType' and 'float'"
  | PyDict _ =>
      TypeError "unsupported operand type(s) for *: 'dict' and 'float'"
  | PyStr _ | PyList _ =>
      TypeError "can't multiply sequence by non-int of type 'float'"
  | _ => OverflowError "int too large to convert to float"
  end.

(** [v * y] for a float literal [y]. *)
Definition mul_float (v : pyvalue) (y : float) : M float :=
  match as_double v with
  | Some x => ret (mul x y)
  | None => raise (mul_float_error v)
  end.

Definition get_churn_prediction_from_model_server
    (customer_id : string) (features : gmap string pyvalue) : M float :=
  logging_info
    (INFO_simulating
       ("Simulating call to Model Serving for customer: " +:+ customer_id)) ;;;
  let* tickets :=
    mul_float (dict_get features "support_tickets_last_30d" (PyInt 0)) lit_0_2 in
  let* tenure :=
    mul_float (dict_get features "tenure_months" (PyInt 12)) lit_0_01 in
  ret (add tickets tenure).

(** ** API endpoint (main.py, lines 97-123) *)

(** The block under [try:]. *)
Definition decide_try (payload : FeaturePayload.t) : M DecisionResponse.t :=
  let* churn_probability :=
    get_churn_prediction_from_model_server
      (FeaturePayload.customer_id payload) (FeaturePayload.features payload) in
  let* decision := make_churn_decision churn_probability in
  let response :=
    DecisionResponse.Build
      (FeaturePayload.customer_id payload) churn_probability
      (fst decision) (snd decision) in
  logging_info (INFO_decision response) ;;;
  ret response.

Definition decide (payload : FeaturePayload.t) : M DecisionResponse.t :=
  try_except (decide_try payload)
    (fun e =>
       raise (HTTPException 500
                ("Internal server error in decision engine: " +:+ exn_str e))).

(** The process over its life: the requests it receives are handled one
    after the other, each starting in the state the previous one left.
    [decide] has no suspension point of its own, so requests do not
    interleave inside it. *)
Fixpoint serve (requests : list FeaturePayload.t) (s : state)
  : list (exn + DecisionResponse.t) * state :=
  match requests with
  | [] => ([], s)
  | payload :: rest =>
      let '(r, s') := decide payload s in
      let '(rs, s'') := serve rest s' in
      (r :: rs, s'')
  end.

(** The order of the bands by risk. *)
Definition severity (a : RecommendedAction) : nat :=
  match a with
  | NO_ACTION => 0
  | MONITOR_ACCOUNT => 1
  | PROACTIVE_RETENTION => 2
  end.

(** The request of the scenario: three tickets, six months of tenure. *)
Definition scenario_features : gmap string pyvalue :=
  <["support_tickets_last_30d" := PyInt 3]> (<["tenure_months" := PyInt 6]> ∅).

(** A request whose tenure is a string. *)
Definition text_tenure_payload : FeaturePayload.t :=
  FeaturePayload.Build "cust_12345" (<["tenure_months" := PyStr "six"]> ∅).

(** Ten tickets and seventy-two months: the prediction is 2.72. *)
Definition heavy_payload : FeaturePayload.t :=
  FeaturePayload.Build "cust_12345"
    (<["support_tickets_last_30d" := PyInt 10]> (<["tenure_months" := PyInt 72]> ∅)).

Definition heavy_response : DecisionResponse.t :=
  DecisionResponse.Build "cust_12345"
    (S754_finite false 6124895493223874 (-51)) PROACTIVE_RETENTION HIGH.

(** ** Frame condition on the threshold table *)

(** [keeps_thresholds m]: running [m] leaves the global table as it found
    it, on the returning path and on the raising one. *)
Definition keeps_thresholds {A} (m : M A) : Prop :=
  forall s, CHURN_DECISION_THRESHOLDS (snd (m s)) = CHURN_DECISION_THRESHOLDS s.

(** ** Further definitions: enumerations, log, form and WSGI entry *)

(** [RecommendedAction(v)] and [ConfidenceLevel(v)]: the member with the
    value [v]; [None] where the enumeration raises [ValueError]. *)
Definition RecommendedAction_of_value (v : string) : option RecommendedAction :=
  if String.eqb v "Proactive_Retention_Offer" then Some PROACTIVE_RETENTION
  else if String.eqb v "Monitor_Account" then Some MONITOR_ACCOUNT
  else if String.eqb v "No_Action_Needed" then Some NO_ACTION
  else None.

Definition ConfidenceLevel_of_value (v : string) : option ConfidenceLevel :=
  if String.eqb v "High" then Some HIGH
  else if String.eqb v "Medium" then Some MEDIUM
  else if String.eqb v "Low" then Some LOW
  else None.

(** The pair [make_churn_decision] returns under the table of the module
    body (lemma [make_churn_decision_bands]). *)
Definition startup_band (p : float) : RecommendedAction * ConfidenceLevel :=
  if gt p lit_0_75 then (PROACTIVE_RETENTION, HIGH)
  else if gt p lit_0_50 then (MONITOR_ACCOUNT, MEDIUM)
  else (NO_ACTION, LOW).

(** The message [get_churn_prediction_from_model_server] logs. *)
Definition simulating_message (customer_id : string) : string :=
  "Simulating call to Model Serving for customer: " +:+ customer_id.

(** The two kinds of records of a log, each in the order written. *)
Definition decisions (l : list log_record) : list DecisionResponse.t :=
  flat_map (fun r => match r with INFO_decision d => [d] | _ => [] end) l.

Definition simulations (l : list log_record) : list string :=
  flat_map (fun r => match r with INFO_simulating m => [m] | _ => [] end) l.

(** The responses among the outcomes of [serve]. *)
Definition successes (rs : list (exn + DecisionResponse.t)) : list DecisionResponse.t :=
  flat_map (fun r => match r with inr d => [d] | inl _ => [] end) rs.

(** *** ui.py *)

(** The payload the form builds on submit (ui.py, lines 47-55).  The
    sliders for months, tickets and failed payments have integer bounds
    and give [int]s; the one for the charges gives a [float]. *)
Definition ui_features (monthly_charges : float)
    (tenure_months support_tickets failed_payments : Z) : gmap string pyvalue :=
  <["monthly_charges" := PyFloat monthly_charges]>
  (<["tenure_months" := PyInt tenure_months]>
  (<["support_tickets_last_30d" := PyInt support_tickets]>
  (<["failed_payments_last_90d" := PyInt failed_payments]> ∅))).

Definition ui_payload (customer_id : string) (monthly_charges : float)
    (tenure_months support_tickets failed_payments : Z) : FeaturePayload.t :=
  FeaturePayload.Build customer_id
    (ui_features monthly_charges tenure_months support_tickets failed_payments).

(** The ranges of the sliders (ui.py, lines 35 and 37). *)
Definition tenure_slider (v : Z) : Prop := 1 <= v <= 72.
Definition tickets_slider (v : Z) : Prop := 0 <= v <= 10.

(** The prediction for [tickets] tickets and [tenure] months, both [int]s
    within the binary64 range. *)
Definition heuristic (tickets tenure : Z) : float :=
  add (mul (of_Z tickets) lit_0_2) (mul (of_Z tenure) lit_0_01).

(** The largest prediction the form can obtain; Python prints it
    [2.7199999999999998]. *)
Definition lit_2_7199999999999998 : float :=
  S754_finite false 6124895493223874 (-51).

(** [needle in hay] for two [str]. *)
Fixpoint str_contains (needle hay : string) : bool :=
  String.prefix needle hay
  || match hay with
     | EmptyString => false
     | String _ rest => str_contains needle rest
     end.

Section Characters.
Import Stdlib.Strings.Ascii.
Definition underscore : Ascii.ascii := "_"%char.
Definition space : Ascii.ascii := " "%char.
End Characters.

(** [s.replace(old, new)] for one-character [old] and [new]. *)
Fixpoint str_replace_char (old new : Ascii.ascii) (s : string) : string :=
  match s with
  | EmptyString => EmptyString
  | String c rest =>
      String (if Ascii.eqb c old then new else c) (str_replace_char old new rest)
  end.

(** The Streamlit call that shows the action (ui.py, lines 76-81). *)
Inductive st_call :=
  | st_error (body icon : string)
  | st_warning (body icon : string)
  | st_success (body icon : string).

Definition action_box (action : string) : st_call :=
  let body := "**Action:** " +:+ str_replace_char underscore space action in
  if str_contains "Proactive_Retention" action then st_error body "🚨"
  else if str_contains "Monitor_Account" action then st_warning body "⚠️"
  else st_success body "✅".

(** The value of the metric (ui.py, line 83): [f"{probability:.2%}"] for a
    float.  The format multiplies by 100 in float arithmetic and prints
    the product with two decimals, rounded to nearest on its exact value,
    ties to even. *)
Definition two_digits (n : Z) : string :=
  if n <? 10 then "0" +:+ pretty n else pretty n.

(** [m * 2^e] in hundredths, rounded. *)
Definition hundredths (m : positive) (e : Z) : Z :=
  let num := Z.pos m * 100 in
  if 0 <=? e then num * 2 ^ e
  else
    let den := 2 ^ (- e) in
    let q := num / den in
    let r := num mod den in
    match 2 * r ?= den with
    | Lt => q
    | Gt => q + 1
    | Eq => if Z.even q then q else q + 1
    end.

Definition format_fixed_2 (x : float) : string :=
  match x with
  | S754_nan => "nan"
  | S754_infinity s => if s then "-inf" else "inf"
  | S754_zero s => if s then "-0.00" else "0.00"
  | S754_finite s m e =>
      let n := hundredths m e in
      (if s then "-" else "") +:+ pretty (n / 100) +:+ "." +:+ two_digits (n mod 100)
  end.

Definition format_percent (probability : float) : string :=
  format_fixed_2 (mul probability (of_Z 100)) +:+ "%".

(** *** pythonanywhere_wsgi.py *)

Definition project_home : string := "/home/praykar/biautomate".

(** Lines 12-13, as a function of [sys.path]. *)
Definition wsgi_sys_path (sys_path : list string) : list string :=
  if bool_decide (project_home ∈ sys_path) then sys_path
  else project_home :: sys_path.

(** *** Sample requests and tables *)

(** A request with the tenure null, and one with 2^1024 months. *)
Definition null_tenure_payload : FeaturePayload.t :=
  FeaturePayload.Build "cust_12345" (<["tenure_months" := PyNone]> ∅).

Definition huge_tenure_payload : FeaturePayload.t :=
  FeaturePayload.Build "cust_12345" (<["tenure_months" := PyInt (2 ^ 1024)]> ∅).

(** A request with NaN tickets. *)
Definition nan_tickets_payload : FeaturePayload.t :=
  FeaturePayload.Build "cust_12345"
    (<["support_tickets_last_30d" := PyFloat S754_nan]> ∅).

(** A table with the high-risk rule only. *)
Definition high_only : state :=
  State (<["high_risk" := Rule lit_0_75 PROACTIVE_RETENTION HIGH]> ∅) [].

(** *** Checks over the positions of the sliders *)

(** The band of [20 * tickets + tenure] hundredths, with the one position
    of the sliders where the float sum is above the exact one. *)
Definition slider_band (tickets tenure : Z) : RecommendedAction * ConfidenceLevel :=
  if (75 <? 20 * tickets + tenure) || ((tickets =? 3) && (tenure =? 15))
  then (PROACTIVE_RETENTION, HIGH)
  else if 50 <? 20 * tickets + tenure then (MONITOR_ACCOUNT, MEDIUM)
  else (NO_ACTION, LOW).

(** A check at every position of the two sliders. *)
Definition sliders_forallb (f : Z -> Z -> bool) : bool :=
  forallb (fun tickets => forallb (fun tenure => f tickets tenure) (seqZ 1 72))
    (seqZ 0 11).

Definition band_eqb (b1 b2 : RecommendedAction * ConfidenceLevel) : bool :=
  String.eqb (RecommendedAction_value (fst b1)) (RecommendedAction_value (fst b2))
  && String.eqb (ConfidenceLevel_value (snd b1)) (ConfidenceLevel_value (snd b2)).

Definition int_fits (n : Z) : bool :=
  match of_Z n with
  | S754_infinity _ => false
  | _ => true
  end.

(** * Properties *)

(** ** The order of binary64 values *)

Section FloatOrder.

(** Case analysis on every comparison of exponents and of mantissas that
    [SFcompare] performs. *)
Ltac compare_cases :=
  repeat match goal with
  | H : context [Pos.compare_cont Eq ?a ?b] |- _ =>
      change (Pos.compare_cont Eq a b) with (Pos.compare a b) in H
  | |- context [Pos.compare_cont Eq ?a ?b] =>
      change (Pos.compare_cont Eq a b) with (Pos.compare a b)
  end;
  repeat match goal with
  | H : context [Z.compare ?a ?b] |- _ =>
      destruct (Z.compare_spec a b); simpl in H
  | |- context [Z.compare ?a ?b] =>
      destruct (Z.compare_spec a b); simpl
  | H : context [Pos.compare ?a ?b] |- _ =>
      destruct (Pos.compare_spec a b); simpl in H
  | |- context [Pos.compare ?a ?b] =>
      destruct (Pos.compare_spec a b); simpl
  end.

Lemma SFcompare_swap (x y : float) :
  SFcompare y x = option_map CompOpp (SFcompare x y).
Proof.
  destruct x as [[]|[]| |[] m1 e1], y as [[]|[]| |[] m2 e2];
    simpl; try reflexivity;
    compare_cases; try reflexivity; try lia; subst; lia.
Qed.

Lemma gt_lt (x y : float) : gt x y = lt y x.
Proof.
  unfold gt, lt, SFltb. rewrite (SFcompare_swap x y).
  destruct (SFcompare x y) as [[]|]; reflexivity.
Qed.

Lemma le_not_gt (x y : float) : le x y = true -> gt x y = false.
Proof.
  unfold le, SFleb, gt.
  destruct (SFcompare x y) as [[]|]; intros H; try reflexivity; discriminate H.
Qed.

Lemma lt_le (x y : float) : lt x y = true -> le x y = true.
Proof.
  unfold lt, SFltb, le, SFleb.
  destruct (SFcompare x y) as [[]|]; intros H; try reflexivity; discriminate H.
Qed.

Lemma lt_le_trans (x y z : float) :
  lt x y = true -> le y z = true -> lt x z = true.
Proof.
  unfold lt, le, SFltb, SFleb.
  destruct x as [[]|[]| |[] m1 e1], y as [[]|[]| |[] m2 e2],
           z as [[]|[]| |[] m3 e3];
    simpl; try discriminate; try reflexivity; intros H1 H2;
    compare_cases; try reflexivity; try discriminate; lia.
Qed.

Lemma gt_le_trans (x y z : float) :
  gt y x = true -> le y z = true -> gt z x = true.
Proof. rewrite !gt_lt. apply lt_le_trans. Qed.

(** Below the medium threshold is below the high one. *)
Lemma le_0_50_not_gt_0_75 (p : float) :
  le p lit_0_50 = true -> gt p lit_0_75 = false.
Proof.
  intros Hle. destruct (gt p lit_0_75) eqn:Hgt; [|reflexivity].
  rewrite gt_lt in Hgt.
  assert (H : lt lit_0_50 lit_0_50 = true).
  { apply (lt_le_trans _ p); [|exact Hle].
    apply (lt_le_trans _ lit_0_75); [reflexivity|]. apply lt_le, Hgt. }
  discriminate H.
Qed.

End FloatOrder.

(** ** The threshold table and the rule engine *)

Lemma startup_high_risk :
  startup_thresholds !! "high_risk" = Some (Rule lit_0_75 PROACTIVE_RETENTION HIGH).
Proof. reflexivity. Qed.

Lemma startup_medium_risk :
  startup_thresholds !! "medium_risk" = Some (Rule lit_0_50 MONITOR_ACCOUNT MEDIUM).
Proof. reflexivity. Qed.

(** With the table of the module body, [make_churn_decision] is the
    three-way case distinction on the two strict comparisons. *)
Lemma make_churn_decision_bands (p : float) (s : state) :
  CHURN_DECISION_THRESHOLDS s = startup_thresholds ->
  make_churn_decision p s =
    (inr (if gt p lit_0_75 then (PROACTIVE_RETENTION, HIGH)
          else if gt p lit_0_50 then (MONITOR_ACCOUNT, MEDIUM)
          else (NO_ACTION, LOW)), s).
Proof.
  intros Htable.
  unfold make_churn_decision, bind, load_thresholds, getitem.
  rewrite Htable, startup_high_risk. simpl.
  destruct (gt p lit_0_75); simpl.
  - rewrite Htable, startup_high_risk. reflexivity.
  - rewrite Htable, startup_medium_risk. simpl.
    destruct (gt p lit_0_50); simpl; [|reflexivity].
    rewrite Htable, startup_medium_risk. reflexivity.
Qed.

(** [make_churn_decision] hands back the state it was given, whatever the
    table holds and whether it returns or raises. *)
Lemma make_churn_decision_state (p : float) (s : state) :
  snd (make_churn_decision p s) = s.
Proof.
  unfold make_churn_decision, bind, load_thresholds, getitem, ret, raise.
  destruct (CHURN_DECISION_THRESHOLDS s !! "high_risk") as [high|] eqn:Hhigh;
    simpl; [|reflexivity].
  destruct (gt p (threshold high)); simpl.
  - rewrite Hhigh. reflexivity.
  - destruct (CHURN_DECISION_THRESHOLDS s !! "medium_risk") as [medium|] eqn:Hmedium;
      simpl; [|reflexivity].
    destruct (gt p (threshold medium)); simpl; [rewrite Hmedium|]; reflexivity.
Qed.

(** C1: for every probability p with p > 0.75, make_churn_decision(p)
    returns (Proactive_Retention_Offer, High), in every state that holds
    the table of the module body; so does make_churn_decision(0.80). *)
Theorem C1_high_risk_band (p : float) (s : state) :
  CHURN_DECISION_THRESHOLDS s = startup_thresholds ->
  gt p lit_0_75 = true ->
  make_churn_decision p s = (inr (PROACTIVE_RETENTION, HIGH), s)
  /\ make_churn_decision lit_0_80 s = (inr (PROACTIVE_RETENTION, HIGH), s)
  /\ RecommendedAction_value PROACTIVE_RETENTION = "Proactive_Retention_Offer"
  /\ ConfidenceLevel_value HIGH = "High".
Proof.
  intros Htable Hgt.
  rewrite !(make_churn_decision_bands _ s Htable), Hgt.
  repeat split.
Qed.

Lemma C1_high_risk_band_witness :
  gt lit_0_80 lit_0_75 = true
  /\ make_churn_decision lit_0_80 startup = (inr (PROACTIVE_RETENTION, HIGH), startup).
Proof.
  split; [reflexivity|].
  apply (C1_high_risk_band lit_0_80 startup); reflexivity.
Defined.

(** C2: for every probability p with 0.50 < p <= 0.75,
    make_churn_decision(p) returns (Monitor_Account, Medium); the
    comparisons are strict, so 0.75 itself is not above the high threshold
    and yields (Monitor_Account, Medium), not the proactive offer. *)
Theorem C2_medium_risk_band (p : float) (s : state) :
  CHURN_DECISION_THRESHOLDS s = startup_thresholds ->
  lt lit_0_50 p = true ->
  le p lit_0_75 = true ->
  make_churn_decision p s = (inr (MONITOR_ACCOUNT, MEDIUM), s)
  /\ gt lit_0_75 lit_0_75 = false
  /\ make_churn_decision lit_0_75 s = (inr (MONITOR_ACCOUNT, MEDIUM), s)
  /\ make_churn_decision lit_0_75 s <> (inr (PROACTIVE_RETENTION, HIGH), s).
Proof.
  intros Htable Hlt Hle.
  rewrite !(make_churn_decision_bands _ s Htable).
  rewrite (le_not_gt _ _ Hle), gt_lt, Hlt.
  repeat split. discriminate.
Qed.

Lemma C2_medium_risk_band_witness :
  lt lit_0_50 lit_0_75 = true /\ le lit_0_75 lit_0_75 = true
  /\ make_churn_decision lit_0_75 startup = (inr (MONITOR_ACCOUNT, MEDIUM), startup).
Proof.
  split; [reflexivity|]. split; [reflexivity|].
  apply (C2_medium_risk_band lit_0_75 startup); reflexivity.
Defined.

(** C3: for every probability p with p <= 0.50, make_churn_decision(p)
    returns (No_Action_Needed, Low); 0.50 itself is not above the medium
    threshold and yields (No_Action_Needed, Low), not Monitor_Account. *)
Theorem C3_low_risk_band (p : float) (s : state) :
  CHURN_DECISION_THRESHOLDS s = startup_thresholds ->
  le p lit_0_50 = true ->
  make_churn_decision p s = (inr (NO_ACTION, LOW), s)
  /\ gt lit_0_50 lit_0_50 = false
  /\ make_churn_decision lit_0_50 s = (inr (NO_ACTION, LOW), s)
  /\ make_churn_decision lit_0_50 s <> (inr (MONITOR_ACCOUNT, MEDIUM), s).
Proof.
  intros Htable Hle.
  rewrite !(make_churn_decision_bands _ s Htable).
  rewrite (le_0_50_not_gt_0_75 _ Hle), (le_not_gt _ _ Hle).
  repeat split. discriminate.
Qed.

Lemma C3_low_risk_band_witness :
  le lit_0_50 lit_0_50 = true
  /\ make_churn_decision lit_0_50 startup = (inr (NO_ACTION, LOW), startup).
Proof.
  split; [reflexivity|].
  apply (C3_low_risk_band lit_0_50 startup); reflexivity.
Defined.

(** C4, as amended: make_churn_decision returns for every float, NaN
    included, and raises nothing; an input outside [0,1] is classified
    like any other: a negative one falls into (No_Action_Needed, Low), one
    greater than 1 into (Proactive_Retention_Offer, High). *)
Theorem C4_total_out_of_range (p : float) (s : state) :
  CHURN_DECISION_THRESHOLDS s = startup_thresholds ->
  (exists r, make_churn_decision p s = (inr r, s))
  /\ (lt p lit_0_0 = true ->
      make_churn_decision p s = (inr (NO_ACTION, LOW), s))
  /\ (gt p lit_1_0 = true ->
      make_churn_decision p s = (inr (PROACTIVE_RETENTION, HIGH), s))
  /\ (is_nan p = true ->
      make_churn_decision p s = (inr (NO_ACTION, LOW), s)).
Proof.
  intros Htable. rewrite (make_churn_decision_bands p s Htable).
  split; [eexists; reflexivity|]. split; [|split].
  - intros Hneg.
    assert (Hle : le p lit_0_50 = true).
    { apply lt_le, (lt_le_trans _ lit_0_0); [exact Hneg|reflexivity]. }
    rewrite (le_0_50_not_gt_0_75 _ Hle), (le_not_gt _ _ Hle). reflexivity.
  - intros Hbig.
    rewrite (gt_le_trans lit_0_75 lit_1_0 p); [reflexivity|reflexivity|].
    apply lt_le. rewrite <- gt_lt. exact Hbig.
  - destruct p; try discriminate. reflexivity.
Qed.

Lemma C4_total_out_of_range_witness :
  (lt lit_neg_0_25 lit_0_0 = true
   /\ make_churn_decision lit_neg_0_25 startup = (inr (NO_ACTION, LOW), startup))
  /\ (gt lit_1_5 lit_1_0 = true
   /\ make_churn_decision lit_1_5 startup = (inr (PROACTIVE_RETENTION, HIGH), startup)).
Proof.
  split; (split; [reflexivity|]).
  - destruct (C4_total_out_of_range lit_neg_0_25 startup eq_refl)
      as (_ & Hneg & _ & _).
    apply Hneg. reflexivity.
  - destruct (C4_total_out_of_range lit_1_5 startup eq_refl)
      as (_ & _ & Hbig & _).
    apply Hbig. reflexivity.
Defined.

(** C4 as the claim words it fails: 1.5 is greater than 1 and is not
    classified (No_Action_Needed, Low). *)
Lemma C4_above_one_counterexample :
  gt lit_1_5 lit_1_0 = true
  /\ make_churn_decision lit_1_5 startup <> (inr (NO_ACTION, LOW), startup).
Proof. split; [reflexivity|]. vm_compute. discriminate. Qed.

(** C5: make_churn_decision is monotone: for p1 <= p2 the band of p2 is at
    least as severe as the band of p1, in the order No_Action_Needed <
    Monitor_Account < Proactive_Retention_Offer. *)
Theorem C5_monotone_severity (p1 p2 : float) (s : state) :
  CHURN_DECISION_THRESHOLDS s = startup_thresholds ->
  le p1 p2 = true ->
  exists a1 c1 a2 c2,
    make_churn_decision p1 s = (inr (a1, c1), s)
    /\ make_churn_decision p2 s = (inr (a2, c2), s)
    /\ (severity a1 <= severity a2)%nat.
Proof.
  intros Htable Hle.
  rewrite !(make_churn_decision_bands _ s Htable).
  destruct (gt p1 lit_0_75) eqn:Hhigh.
  - rewrite (gt_le_trans _ _ _ Hhigh Hle).
    do 4 eexists. repeat split. simpl. lia.
  - destruct (gt p1 lit_0_50) eqn:Hmedium.
    + pose proof (gt_le_trans _ _ _ Hmedium Hle) as Hmedium2.
      rewrite Hmedium2.
      destruct (gt p2 lit_0_75); do 4 eexists; repeat split; simpl; lia.
    + destruct (gt p2 lit_0_75); [|destruct (gt p2 lit_0_50)];
        do 4 eexists; repeat split; simpl; lia.
Qed.

Lemma C5_monotone_severity_witness :
  le lit_0_50 lit_0_80 = true
  /\ exists a1 c1 a2 c2,
       make_churn_decision lit_0_50 startup = (inr (a1, c1), startup)
       /\ make_churn_decision lit_0_80 startup = (inr (a2, c2), startup)
       /\ (severity a1 <= severity a2)%nat.
Proof.
  split; [reflexivity|].
  apply (C5_monotone_severity lit_0_50 lit_0_80 startup); reflexivity.
Defined.

(** ** What a computation does to the threshold table *)

Create HintDb frame.

Section Frame.

Context {A B : Type}.

Lemma keeps_ret (a : A) : keeps_thresholds (ret a).
Proof. intros s. reflexivity. Qed.

Lemma keeps_raise (e : exn) : keeps_thresholds (@raise A e).
Proof. intros s. reflexivity. Qed.

Lemma keeps_bind (m : M A) (k : A -> M B) :
  keeps_thresholds m -> (forall a, keeps_thresholds (k a)) ->
  keeps_thresholds (bind m k).
Proof.
  intros Hm Hk s. unfold bind. specialize (Hm s).
  destruct (m s) as [[e|a] s']; simpl in *; [exact Hm|].
  rewrite Hk. exact Hm.
Qed.

Lemma keeps_try_except (body : M A) (handler : exn -> M A) :
  keeps_thresholds body -> (forall e, keeps_thresholds (handler e)) ->
  keeps_thresholds (try_except body handler).
Proof.
  intros Hbody Hhandler s. unfold try_except. specialize (Hbody s).
  destruct (body s) as [[e|a] s']; simpl in *; [|exact Hbody].
  rewrite Hhandler. exact Hbody.
Qed.

Lemma keeps_if (b : bool) (m1 m2 : M A) :
  keeps_thresholds m1 -> keeps_thresholds m2 ->
  keeps_thresholds (if b then m1 else m2).
Proof. destruct b; trivial. Qed.

Lemma keeps_getitem (d : gmap string A) (key : string) :
  keeps_thresholds (getitem d key).
Proof. unfold getitem. destruct (d !! key); [apply keeps_ret|apply keeps_raise]. Qed.

End Frame.

Lemma keeps_load_thresholds : keeps_thresholds load_thresholds.
Proof. intros s. reflexivity. Qed.

Lemma keeps_logging_info (r : log_record) : keeps_thresholds (logging_info r).
Proof. intros s. reflexivity. Qed.

Lemma keeps_mul_float (v : pyvalue) (y : float) : keeps_thresholds (mul_float v y).
Proof. unfold mul_float. destruct (as_double v); [apply keeps_ret|apply keeps_raise]. Qed.

#[local] Hint Resolve keeps_ret keeps_raise keeps_getitem keeps_load_thresholds
  keeps_logging_info keeps_mul_float : frame.

(** Walks down a computation built from [bind], [if] and [try_except]. *)
Ltac frame :=
  repeat first
    [ apply keeps_bind; [|intro]
    | apply keeps_try_except; [|intro]
    | apply keeps_if
    | solve [auto with frame] ].

Lemma keeps_make_churn_decision (p : float) :
  keeps_thresholds (make_churn_decision p).
Proof. unfold make_churn_decision. frame. Qed.

Lemma keeps_get_churn_prediction (customer_id : string) (features : gmap string pyvalue) :
  keeps_thresholds (get_churn_prediction_from_model_server customer_id features).
Proof. unfold get_churn_prediction_from_model_server. frame. Qed.

#[local] Hint Resolve keeps_make_churn_decision keeps_get_churn_prediction : frame.

Lemma keeps_decide (payload : FeaturePayload.t) : keeps_thresholds (decide payload).
Proof. unfold decide, decide_try. frame. Qed.

Lemma serve_thresholds (requests : list FeaturePayload.t) (s : state) :
  CHURN_DECISION_THRESHOLDS (snd (serve requests s)) = CHURN_DECISION_THRESHOLDS s.
Proof.
  revert s. induction requests as [|payload rest IH]; intros s; [reflexivity|].
  simpl. pose proof (keeps_decide payload s) as Hd.
  destruct (decide payload s) as [r s']. specialize (IH s').
  destruct (serve rest s') as [rs s'']. simpl in *. congruence.
Qed.

(** The result of [make_churn_decision] is a function of the probability
    and of the table alone. *)
Lemma make_churn_decision_reads (p : float) (s1 s2 : state) :
  CHURN_DECISION_THRESHOLDS s1 = CHURN_DECISION_THRESHOLDS s2 ->
  fst (make_churn_decision p s1) = fst (make_churn_decision p s2).
Proof.
  intros Htable.
  unfold make_churn_decision, bind, load_thresholds, getitem, ret, raise.
  rewrite Htable.
  destruct (CHURN_DECISION_THRESHOLDS s2 !! "high_risk") as [high|] eqn:Hhigh;
    simpl; [|reflexivity].
  destruct (gt p (threshold high)); simpl.
  - rewrite Htable, Hhigh. reflexivity.
  - rewrite Htable.
    destruct (CHURN_DECISION_THRESHOLDS s2 !! "medium_risk") as [medium|] eqn:Hmedium;
      simpl; [|reflexivity].
    destruct (gt p (threshold medium)); simpl; [|reflexivity].
    rewrite Htable, Hmedium. reflexivity.
Qed.

(** C8: make_churn_decision is deterministic and free of side effects: it
    hands back the state it was given; its result depends on the
    probability and on the threshold table only (two states that agree on
    the table give the same result, whatever else they hold); and a second
    evaluation right after the first returns the same pair. *)
Theorem C8_deterministic_no_side_effect (p : float) :
  (forall s, snd (make_churn_decision p s) = s)
  /\ (forall s1 s2,
        CHURN_DECISION_THRESHOLDS s1 = CHURN_DECISION_THRESHOLDS s2 ->
        fst (make_churn_decision p s1) = fst (make_churn_decision p s2))
  /\ (forall s r,
        fst (make_churn_decision p s) = inr r ->
        (let* r1 := make_churn_decision p in
         let* r2 := make_churn_decision p in
         ret (r1, r2)) s = (inr (r, r), s)).
Proof.
  split; [apply make_churn_decision_state|].
  split; [apply make_churn_decision_reads|].
  intros s r Hr. unfold bind, ret.
  pose proof (make_churn_decision_state p s) as Hs.
  destruct (make_churn_decision p s) as [res s'] eqn:Hrun.
  simpl in Hr, Hs. subst res s'. rewrite Hrun. reflexivity.
Qed.

Lemma C8_deterministic_no_side_effect_witness :
  fst (make_churn_decision lit_0_80 startup) = inr (PROACTIVE_RETENTION, HIGH)
  /\ (let* r1 := make_churn_decision lit_0_80 in
      let* r2 := make_churn_decision lit_0_80 in
      ret (r1, r2)) startup
     = (inr ((PROACTIVE_RETENTION, HIGH), (PROACTIVE_RETENTION, HIGH)), startup).
Proof.
  split; [reflexivity|].
  destruct (C8_deterministic_no_side_effect lit_0_80) as (_ & _ & Htwice).
  apply Htwice. reflexivity.
Defined.

(** C9: the decision band table is static configuration: neither the
    classification, nor the predictor, nor the handling of a request
    changes it, so after any sequence of requests served since startup the
    next request finds the table of the module body: 0.75 with
    Proactive_Retention_Offer/High under "high_risk", 0.50 with
    Monitor_Account/Medium under "medium_risk", and nothing else. *)
Theorem C9_thresholds_static :
  (forall p, keeps_thresholds (make_churn_decision p))
  /\ (forall customer_id features,
        keeps_thresholds (get_churn_prediction_from_model_server customer_id features))
  /\ (forall payload, keeps_thresholds (decide payload))
  /\ (forall requests,
        CHURN_DECISION_THRESHOLDS (snd (serve requests startup)) = startup_thresholds)
  /\ startup_thresholds !! "high_risk"
       = Some (Rule lit_0_75 PROACTIVE_RETENTION HIGH)
  /\ startup_thresholds !! "medium_risk"
       = Some (Rule lit_0_50 MONITOR_ACCOUNT MEDIUM)
  /\ (forall key, key <> "high_risk" -> key <> "medium_risk" ->
        startup_thresholds !! key = None).
Proof.
  split; [apply keeps_make_churn_decision|].
  split; [apply keeps_get_churn_prediction|].
  split; [apply keeps_decide|].
  split; [intros requests; apply (serve_thresholds requests startup)|].
  split; [reflexivity|]. split; [reflexivity|].
  intros key Hhigh Hmedium. unfold startup_thresholds.
  rewrite !lookup_insert_ne by congruence. apply lookup_empty.
Qed.

Lemma C9_thresholds_static_witness :
  startup_thresholds !! "low_risk" = None
  /\ CHURN_DECISION_THRESHOLDS
       (snd (serve [heavy_payload; text_tenure_payload] startup))
     = startup_thresholds.
Proof.
  destruct C9_thresholds_static as (_ & _ & _ & Hserve & _ & _ & Hother).
  split; [apply Hother; discriminate|apply Hserve].
Defined.

(** ** The heuristic predictor *)

(** The literals are the decimal fractions rounded to nearest. *)
Lemma literals_rounded :
  lit_0_75 = div (of_Z 75) (of_Z 100) /\ lit_0_50 = div (of_Z 50) (of_Z 100)
  /\ lit_0_2 = div (of_Z 2) (of_Z 10) /\ lit_0_01 = div (of_Z 1) (of_Z 100)
  /\ lit_0_80 = div (of_Z 80) (of_Z 100) /\ lit_0_66 = div (of_Z 66) (of_Z 100)
  /\ lit_1_0 = of_Z 1 /\ lit_1_5 = div (of_Z 15) (of_Z 10)
  /\ lit_neg_0_25 = div (of_Z (-25)) (of_Z 100).
Proof. repeat split. Qed.

Lemma get_churn_prediction_run
    (customer_id : string) (features : gmap string pyvalue) (s : state) :
  let s1 :=
    State (CHURN_DECISION_THRESHOLDS s)
      (log s ++ [INFO_simulating
                   ("Simulating call to Model Serving for customer: " +:+ customer_id)]) in
  get_churn_prediction_from_model_server customer_id features s =
    match as_double (dict_get features "support_tickets_last_30d" (PyInt 0)) with
    | None =>
        (inl (mul_float_error (dict_get features "support_tickets_last_30d" (PyInt 0))), s1)
    | Some x =>
        match as_double (dict_get features "tenure_months" (PyInt 12)) with
        | None => (inl (mul_float_error (dict_get features "tenure_months" (PyInt 12))), s1)
        | Some y => (inr (add (mul x lit_0_2) (mul y lit_0_01)), s1)
        end
    end.
Proof.
  unfold get_churn_prediction_from_model_server, bind, logging_info, mul_float.
  simpl.
  destruct (as_double (dict_get features "support_tickets_last_30d" (PyInt 0)));
    [|reflexivity].
  simpl.
  destruct (as_double (dict_get features "tenure_months" (PyInt 12))); reflexivity.
Qed.

(** C6, as amended: the heuristic predictor computes
    support_tickets_last_30d * 0.2 + tenure_months * 0.01 in binary64
    arithmetic, a missing support_tickets_last_30d standing for 0 and a
    missing tenure_months for 12; for {support_tickets_last_30d: 3,
    tenure_months: 6} it returns 0.6600000000000001, the float next above
    0.66, which classifies to (Monitor_Account, Medium). *)
Theorem C6_heuristic_predictor
    (customer_id : string) (features : gmap string pyvalue) (s : state)
    (x y : float) :
  as_double (dict_get features "support_tickets_last_30d" (PyInt 0)) = Some x ->
  as_double (dict_get features "tenure_months" (PyInt 12)) = Some y ->
  fst (get_churn_prediction_from_model_server customer_id features s)
    = inr (add (mul x lit_0_2) (mul y lit_0_01))
  /\ (features !! "support_tickets_last_30d" = None -> x = of_Z 0)
  /\ (features !! "tenure_months" = None -> y = of_Z 12)
  /\ fst (get_churn_prediction_from_model_server customer_id scenario_features s)
       = inr (add (mul (of_Z 3) lit_0_2) (mul (of_Z 6) lit_0_01))
  /\ add (mul (of_Z 3) lit_0_2) (mul (of_Z 6) lit_0_01) = lit_0_6600000000000001
  /\ make_churn_decision lit_0_6600000000000001 startup
       = (inr (MONITOR_ACCOUNT, MEDIUM), startup).
Proof.
  intros Hx Hy. rewrite !get_churn_prediction_run.
  split; [rewrite Hx, Hy; reflexivity|].
  split.
  { intros Hnone. unfold dict_get in Hx. rewrite Hnone in Hx.
    vm_compute in Hx. injection Hx as <-. reflexivity. }
  split.
  { intros Hnone. unfold dict_get in Hy. rewrite Hnone in Hy.
    vm_compute in Hy. injection Hy as <-. reflexivity. }
  split; [reflexivity|]. split; reflexivity.
Qed.

Lemma C6_heuristic_predictor_witness :
  fst (get_churn_prediction_from_model_server "cust_12345" scenario_features startup)
    = inr lit_0_6600000000000001.
Proof.
  apply (C6_heuristic_predictor "cust_12345" scenario_features startup
           (of_Z 3) (of_Z 6)); reflexivity.
Defined.

(** C6 as the claim words it fails: the value returned for three tickets
    and six months is not the float 0.66. *)
Lemma C6_exactly_0_66_counterexample :
  lit_0_66 = div (of_Z 66) (of_Z 100)
  /\ fst (get_churn_prediction_from_model_server "cust_12345" scenario_features startup)
       <> inr lit_0_66.
Proof. split; [reflexivity|]. vm_compute. discriminate. Qed.

(** ** The endpoint *)

(** The detail of the response [decide] raises for an exception [e]. *)
Lemma decide_raises (payload : FeaturePayload.t) (s s' : state) (e : exn) :
  decide_try payload s = (inl e, s') ->
  decide payload s =
    (inl (HTTPException 500
            ("Internal server error in decision engine: " +:+ exn_str e)), s').
Proof. intros Htry. unfold decide, try_except. rewrite Htry. reflexivity. Qed.

Lemma decide_returns (payload : FeaturePayload.t) (s s' : state)
    (r : DecisionResponse.t) :
  decide_try payload s = (inr r, s') -> decide payload s = (inr r, s').
Proof. intros Htry. unfold decide, try_except. rewrite Htry. reflexivity. Qed.

(** A returning run of the block under [try:], step by step. *)
Lemma decide_try_returns (payload : FeaturePayload.t) (s s' : state)
    (r : DecisionResponse.t) :
  decide_try payload s = (inr r, s') ->
  exists x s1 d,
    get_churn_prediction_from_model_server
      (FeaturePayload.customer_id payload) (FeaturePayload.features payload) s
      = (inr x, s1)
    /\ make_churn_decision x s1 = (inr d, s1)
    /\ r = DecisionResponse.Build (FeaturePayload.customer_id payload) x (fst d) (snd d).
Proof.
  unfold decide_try, bind.
  destruct (get_churn_prediction_from_model_server _ _ s) as [[e|x] s1] eqn:Hp;
    [discriminate|].
  pose proof (make_churn_decision_state x s1) as Hstate.
  destruct (make_churn_decision x s1) as [[e|d] s2] eqn:Hd; [discriminate|].
  simpl in Hstate. subst s2. simpl. intros [= <- _].
  exists x, s1, d. repeat split. exact Hd.
Qed.

(** C7: every exception raised while a request is handled - by the
    predictor call, by the classification, or anywhere else in the block -
    comes out as the one generic internal error, status 500, whose message
    is the fixed prefix followed by the text of the exception; and a
    request ends in exactly one of two ways: the complete DecisionResponse
    the block built, or that generic error. *)
Theorem C7_generic_internal_error (payload : FeaturePayload.t) (s : state) :
  let generic e :=
    HTTPException 500 ("Internal server error in decision engine: " +:+ exn_str e) in
  let predict :=
    get_churn_prediction_from_model_server
      (FeaturePayload.customer_id payload) (FeaturePayload.features payload) in
  (forall e s', decide_try payload s = (inl e, s') ->
                decide payload s = (inl (generic e), s'))
  /\ (forall e s1, predict s = (inl e, s1) ->
                   decide payload s = (inl (generic e), s1))
  /\ (forall x s1 e s2, predict s = (inr x, s1) ->
                        make_churn_decision x s1 = (inl e, s2) ->
                        decide payload s = (inl (generic e), s2))
  /\ ((exists r s', decide_try payload s = (inr r, s')
                    /\ decide payload s = (inr r, s'))
      \/ (exists e s', decide_try payload s = (inl e, s')
                       /\ decide payload s = (inl (generic e), s'))).
Proof.
  intros generic predict.
  split; [intros e s'; apply decide_raises|].
  split.
  { intros e s1 Hp. apply decide_raises.
    unfold decide_try, bind. fold predict. rewrite Hp. reflexivity. }
  split.
  { intros x s1 e s2 Hp Hd. apply decide_raises.
    unfold decide_try, bind. fold predict. rewrite Hp, Hd. reflexivity. }
  destruct (decide_try payload s) as [[e|r] s'] eqn:Htry.
  - right. exists e, s'. split; [reflexivity|]. apply decide_raises, Htry.
  - left. exists r, s'. split; [reflexivity|]. apply decide_returns, Htry.
Qed.

Lemma C7_generic_internal_error_witness :
  fst (decide text_tenure_payload startup)
    = inl (HTTPException 500
             "Internal server error in decision engine: can't multiply sequence by non-int of type 'float'")
  /\ fst (decide (FeaturePayload.Build "cust_12345" scenario_features) (State ∅ []))
    = inl (HTTPException 500 "Internal server error in decision engine: 'high_risk'").
Proof.
  pose (logged :=
    [INFO_simulating "Simulating call to Model Serving for customer: cust_12345"]).
  split.
  - destruct (C7_generic_internal_error text_tenure_payload startup)
      as (_ & Hpredict & _).
    rewrite (Hpredict
               (TypeError "can't multiply sequence by non-int of type 'float'")
               (State startup_thresholds logged)); reflexivity.
  - destruct (C7_generic_internal_error
                (FeaturePayload.Build "cust_12345" scenario_features) (State ∅ []))
      as (_ & _ & Hclassify & _).
    rewrite (Hclassify lit_0_6600000000000001 (State ∅ logged)
               (KeyError "high_risk") (State ∅ logged)); reflexivity.
Defined.

(** C10: a successful request is answered with the customer_id of the
    request and, as churn_probability, the very float the predictor
    returned - nothing rounds or clamps it on the way, so a prediction
    outside [0,1] reaches the caller as it is; the action and the
    confidence are the classification of that same float. *)
Theorem C10_response_echoes (payload : FeaturePayload.t) (s s' : state)
    (r : DecisionResponse.t) :
  decide payload s = (inr r, s') ->
  DecisionResponse.customer_id r = FeaturePayload.customer_id payload
  /\ exists s1,
       get_churn_prediction_from_model_server
         (FeaturePayload.customer_id payload) (FeaturePayload.features payload) s
         = (inr (DecisionResponse.churn_probability r), s1)
       /\ make_churn_decision (DecisionResponse.churn_probability r) s1
          = (inr (DecisionResponse.recommended_action r,
                  DecisionResponse.confidence_level r), s1).
Proof.
  intros Hdecide.
  assert (Htry : decide_try payload s = (inr r, s')).
  { unfold decide, try_except in Hdecide.
    destruct (decide_try payload s) as [[e|r0] s0]; [discriminate|exact Hdecide]. }
  destruct (decide_try_returns _ _ _ _ Htry) as (x & s1 & d & Hp & Hd & ->).
  split; [reflexivity|]. exists s1. simpl. split; [exact Hp|].
  rewrite Hd. destruct d; reflexivity.
Qed.

Lemma C10_response_echoes_witness :
  fst (decide heavy_payload startup) = inr heavy_response
  /\ gt (DecisionResponse.churn_probability heavy_response) lit_1_0 = true
  /\ DecisionResponse.customer_id heavy_response = "cust_12345"
  /\ exists s1,
       get_churn_prediction_from_model_server "cust_12345"
         (FeaturePayload.features heavy_payload) startup
         = (inr (DecisionResponse.churn_probability heavy_response), s1)
       /\ make_churn_decision (DecisionResponse.churn_probability heavy_response) s1
          = (inr (PROACTIVE_RETENTION, HIGH), s1).
Proof.
  split; [vm_compute; reflexivity|]. split; [reflexivity|].
  apply (C10_response_echoes heavy_payload startup
           (snd (decide heavy_payload startup)) heavy_response).
  vm_compute. reflexivity.
Defined.

(** * Further properties of the code *)

(** ** One request, step by step *)

(** What [decide] does, in any state: the predictor logs and multiplies,
    the first operand that is not a number ends the request, and so does a
    classification that raises. *)
Lemma decide_run (payload : FeaturePayload.t) (s : state) :
  let cid := FeaturePayload.customer_id payload in
  let tickets :=
    dict_get (FeaturePayload.features payload) "support_tickets_last_30d" (PyInt 0) in
  let tenure :=
    dict_get (FeaturePayload.features payload) "tenure_months" (PyInt 12) in
  let generic e :=
    HTTPException 500 ("Internal server error in decision engine: " +:+ exn_str e) in
  let s1 :=
    State (CHURN_DECISION_THRESHOLDS s)
      (log s ++ [INFO_simulating (simulating_message cid)]) in
  decide payload s =
    match as_double tickets with
    | None => (inl (generic (mul_float_error tickets)), s1)
    | Some x =>
        match as_double tenure with
        | None => (inl (generic (mul_float_error tenure)), s1)
        | Some y =>
            let p := add (mul x lit_0_2) (mul y lit_0_01) in
            match fst (make_churn_decision p s1) with
            | inl e => (inl (generic e), s1)
            | inr d =>
                let r := DecisionResponse.Build cid p (fst d) (snd d) in
                (inr r,
                 State (CHURN_DECISION_THRESHOLDS s) (log s1 ++ [INFO_decision r]))
            end
        end
    end.
Proof.
  intros cid tickets tenure generic s1.
  unfold decide, try_except, decide_try, bind.
  rewrite get_churn_prediction_run. fold cid tickets tenure.
  destruct (as_double tickets) as [x|]; [|reflexivity].
  destruct (as_double tenure) as [y|]; [|reflexivity].
  fold (simulating_message cid). fold s1.
  pose proof (make_churn_decision_state (add (mul x lit_0_2) (mul y lit_0_01)) s1)
    as Hstate.
  destruct (make_churn_decision (add (mul x lit_0_2) (mul y lit_0_01)) s1)
    as [[e|d] s2]; simpl in Hstate; subst s2; reflexivity.
Qed.

Lemma make_churn_decision_startup_band (p : float) (s : state) :
  CHURN_DECISION_THRESHOLDS s = startup_thresholds ->
  make_churn_decision p s = (inr (startup_band p), s).
Proof. intros Htable. apply (make_churn_decision_bands p s Htable). Qed.

(** The outcome of a request is a function of the request and of the
    threshold table: the log does not enter it. *)
Lemma decide_reads (payload : FeaturePayload.t) (s1 s2 : state) :
  CHURN_DECISION_THRESHOLDS s1 = CHURN_DECISION_THRESHOLDS s2 ->
  fst (decide payload s1) = fst (decide payload s2).
Proof.
  intros Htable. rewrite !decide_run. cbv zeta.
  destruct (as_double _) as [x|]; [|reflexivity].
  destruct (as_double _) as [y|]; [|reflexivity].
  match goal with
  | |- context [fst (make_churn_decision ?p ?a)] =>
      match goal with
      | |- context [fst (make_churn_decision p ?b)] =>
          tryif constr_eq a b then fail
          else rewrite (make_churn_decision_reads p a b) by exact Htable
      end
  end.
  destruct (fst (make_churn_decision _ _)); reflexivity.
Qed.

(** X1: only the entries "support_tickets_last_30d" and "tenure_months" of
    the features reach the decision: two requests of one customer whose
    features agree under these two keys get the same outcome, response or
    error, whatever else the dictionaries hold and whatever was logged
    before. *)
Theorem decide_two_features_only
    (customer_id : string) (f1 f2 : gmap string pyvalue) (s1 s2 : state) :
  CHURN_DECISION_THRESHOLDS s1 = CHURN_DECISION_THRESHOLDS s2 ->
  f1 !! "support_tickets_last_30d" = f2 !! "support_tickets_last_30d" ->
  f1 !! "tenure_months" = f2 !! "tenure_months" ->
  fst (decide (FeaturePayload.Build customer_id f1) s1)
  = fst (decide (FeaturePayload.Build customer_id f2) s2).
Proof.
  intros Htable Htickets Htenure.
  rewrite (decide_reads _ s1 s2 Htable), !decide_run. cbv zeta.
  unfold dict_get. simpl. rewrite Htickets, Htenure. reflexivity.
Qed.

Lemma decide_two_features_only_witness :
  fst (decide (FeaturePayload.Build "cust_12345" scenario_features) startup)
  = fst (decide (ui_payload "cust_12345" lit_1_5 6 3 1) startup).
Proof.
  apply (decide_two_features_only "cust_12345" scenario_features
           (ui_features lit_1_5 6 3 1) startup startup); reflexivity.
Defined.

(** X2: with the table of the module body, a request is answered with a
    response exactly when both consulted features - given, or else the
    defaults 0 and 12 - are numbers within the float range; every other
    request gets the internal error. *)
Theorem decide_succeeds_iff_numbers (payload : FeaturePayload.t) (s : state) :
  CHURN_DECISION_THRESHOLDS s = startup_thresholds ->
  (exists r s', decide payload s = (inr r, s'))
  <-> (exists x y,
         as_double (dict_get (FeaturePayload.features payload)
                      "support_tickets_last_30d" (PyInt 0)) = Some x
         /\ as_double (dict_get (FeaturePayload.features payload)
                         "tenure_months" (PyInt 12)) = Some y).
Proof.
  intros Htable. rewrite decide_run. cbv zeta.
  destruct (as_double (dict_get _ "support_tickets_last_30d" _)) as [x|].
  - destruct (as_double (dict_get _ "tenure_months" _)) as [y|].
    + rewrite make_churn_decision_startup_band by exact Htable. simpl.
      split; [intros _; exists x, y; split; reflexivity|].
      intros _. eexists _, _. reflexivity.
    + split; [intros (r & s' & H); discriminate H|].
      intros (x' & y' & _ & H). discriminate H.
  - split; [intros (r & s' & H); discriminate H|].
    intros (x' & y' & H & _). discriminate H.
Qed.

Lemma decide_succeeds_iff_numbers_witness :
  exists r s', decide (ui_payload "cust_12345" lit_1_5 6 3 1) startup = (inr r, s').
Proof.
  apply (decide_succeeds_iff_numbers (ui_payload "cust_12345" lit_1_5 6 3 1) startup);
    [reflexivity|].
  exists (of_Z 3), (of_Z 6). split; reflexivity.
Defined.

(** X3: how the predictor's errors come out, in any state.  The tickets
    are multiplied first, so when they are not a number their error is the
    one reported, whatever the tenure is.  A key that is present with the
    value null is not a missing key: it does not get the default, the
    request fails with the TypeError of [None * 0.01]; and so it is for an
    int too large for a float, with the OverflowError. *)
Theorem decide_predictor_errors (payload : FeaturePayload.t) (s : state) :
  let features := FeaturePayload.features payload in
  let tickets := dict_get features "support_tickets_last_30d" (PyInt 0) in
  let generic msg :=
    inl (HTTPException 500 ("Internal server error in decision engine: " +:+ msg)) in
  (as_double tickets = None ->
     fst (decide payload s) = generic (exn_str (mul_float_error tickets)))
  /\ (forall x, as_double tickets = Some x ->
        features !! "tenure_months" = Some PyNone ->
        fst (decide payload s)
        = generic "unsupported operand type(s) for *: 'NoneType' and 'float'")
  /\ (forall x n, as_double tickets = Some x ->
        features !! "tenure_months" = Some (PyInt n) ->
        of_Z n = S754_infinity false ->
        fst (decide payload s) = generic "int too large to convert to float").
Proof.
  intros features tickets generic. rewrite decide_run. cbv zeta.
  fold features. fold tickets.
  split; [intros ->; reflexivity|]. split.
  - intros x -> Hnull. unfold dict_get. rewrite Hnull. reflexivity.
  - intros x n -> Hbig Hinf. unfold dict_get. rewrite Hbig.
    unfold as_double. rewrite Hinf. reflexivity.
Qed.

Lemma decide_predictor_errors_witness :
  fst (decide null_tenure_payload startup)
  = inl (HTTPException 500
           "Internal server error in decision engine: unsupported operand type(s) for *: 'NoneType' and 'float'")
  /\ fst (decide huge_tenure_payload startup)
  = inl (HTTPException 500
           "Internal server error in decision engine: int too large to convert to float")
  /\ fst (decide (FeaturePayload.Build "cust_12345"
                    (<["support_tickets_last_30d" := PyStr "3"]>
                       (FeaturePayload.features null_tenure_payload))) startup)
  = inl (HTTPException 500
           "Internal server error in decision engine: can't multiply sequence by non-int of type 'float'").
Proof.
  split; [|split].
  - destruct (decide_predictor_errors null_tenure_payload startup) as (_ & Hnull & _).
    apply (Hnull (of_Z 0)); reflexivity.
  - destruct (decide_predictor_errors huge_tenure_payload startup) as (_ & _ & Hbig).
    apply (Hbig (of_Z 0) (2 ^ 1024)); reflexivity.
  - destruct (decide_predictor_errors
                (FeaturePayload.Build "cust_12345"
                   (<["support_tickets_last_30d" := PyStr "3"]>
                      (FeaturePayload.features null_tenure_payload))) startup)
      as (Hfirst & _).
    apply Hfirst. reflexivity.
Defined.

(** X4: a NaN under one of the two consulted keys, the other being a
    number, is not an error: the request is answered, with NaN as the
    probability and (No_Action_Needed, Low) as the decision. *)
Theorem decide_nan_feature (payload : FeaturePayload.t) (s : state) (z : float) :
  let features := FeaturePayload.features payload in
  let tickets := dict_get features "support_tickets_last_30d" (PyInt 0) in
  let tenure := dict_get features "tenure_months" (PyInt 12) in
  CHURN_DECISION_THRESHOLDS s = startup_thresholds ->
  (tickets = PyFloat S754_nan /\ as_double tenure = Some z)
  \/ (as_double tickets = Some z /\ tenure = PyFloat S754_nan) ->
  fst (decide payload s)
  = inr (DecisionResponse.Build (FeaturePayload.customer_id payload)
           S754_nan NO_ACTION LOW).
Proof.
  intros features tickets tenure Htable Hnan.
  rewrite decide_run. cbv zeta. fold features. fold tickets. fold tenure.
  assert (Hp : forall x y, as_double tickets = Some x -> as_double tenure = Some y ->
               add (mul x lit_0_2) (mul y lit_0_01) = S754_nan).
  { intros x y Hx Hy. destruct Hnan as [[Ht Hm]|[Ht Hm]].
    - rewrite Ht in Hx. injection Hx as <-. reflexivity.
    - rewrite Hm in Hy. injection Hy as <-.
      unfold add. destruct (mul x lit_0_2); reflexivity. }
  destruct (as_double tickets) as [x|] eqn:Hx;
    [|destruct Hnan as [[Ht _]|[Ht _]]; [rewrite Ht in Hx|]; discriminate].
  destruct (as_double tenure) as [y|] eqn:Hy;
    [|destruct Hnan as [[_ Hm]|[_ Hm]]; [|rewrite Hm in Hy]; discriminate].
  rewrite (Hp x y eq_refl eq_refl).
  rewrite make_churn_decision_startup_band by exact Htable. reflexivity.
Qed.

Lemma decide_nan_feature_witness :
  fst (decide nan_tickets_payload startup)
  = inr (DecisionResponse.Build "cust_12345" S754_nan NO_ACTION LOW).
Proof.
  apply (decide_nan_feature nan_tickets_payload startup (of_Z 12));
    [reflexivity|].
  left. split; reflexivity.
Defined.

(** X5: in a response, the action and the confidence are the band of the
    probability carried by the same response; in particular the two never
    disagree: High goes with the retention offer, Medium with monitoring,
    Low with no action. *)
Theorem decide_response_consistent
    (payload : FeaturePayload.t) (s s' : state) (r : DecisionResponse.t) :
  CHURN_DECISION_THRESHOLDS s = startup_thresholds ->
  decide payload s = (inr r, s') ->
  (DecisionResponse.recommended_action r, DecisionResponse.confidence_level r)
  = startup_band (DecisionResponse.churn_probability r)
  /\ (DecisionResponse.recommended_action r = PROACTIVE_RETENTION
      <-> DecisionResponse.confidence_level r = HIGH)
  /\ (DecisionResponse.recommended_action r = MONITOR_ACCOUNT
      <-> DecisionResponse.confidence_level r = MEDIUM)
  /\ (DecisionResponse.recommended_action r = NO_ACTION
      <-> DecisionResponse.confidence_level r = LOW).
Proof.
  intros Htable. rewrite decide_run. cbv zeta.
  destruct (as_double _) as [x|]; [|discriminate].
  destruct (as_double _) as [y|]; [|discriminate].
  rewrite make_churn_decision_startup_band by exact Htable. simpl.
  intros [= <- _]. simpl. unfold startup_band.
  destruct (gt _ lit_0_75); [|destruct (gt _ lit_0_50)]; simpl;
    repeat split; intros; congruence.
Qed.

Lemma decide_response_consistent_witness :
  (DecisionResponse.recommended_action heavy_response,
   DecisionResponse.confidence_level heavy_response)
  = startup_band (DecisionResponse.churn_probability heavy_response).
Proof.
  apply (decide_response_consistent heavy_payload startup
           (snd (decide heavy_payload startup)) heavy_response);
    [reflexivity|vm_compute; reflexivity].
Defined.

(** ** The log and a sequence of requests *)

(** What a request appends to the log. *)
Lemma decide_appends (payload : FeaturePayload.t) (s : state) :
  log (snd (decide payload s))
  = log s
    ++ INFO_simulating (simulating_message (FeaturePayload.customer_id payload))
       :: match fst (decide payload s) with
          | inr r => [INFO_decision r]
          | inl _ => []
          end.
Proof.
  rewrite decide_run. cbv zeta.
  destruct (as_double _) as [x|]; [|reflexivity].
  destruct (as_double _) as [y|]; [|reflexivity].
  destruct (fst (make_churn_decision _ _)) as [e|d]; [reflexivity|].
  simpl. rewrite <- app_assoc. reflexivity.
Qed.

(** X6: what a request leaves in the log, in any state: a request that is
    answered appends the record of the simulated call with the customer's
    id and then the record of the very response it returns; a request that
    fails appends the record of the call and no decision.  Nothing already
    logged is touched. *)
Theorem decide_log (payload : FeaturePayload.t) (s s' : state) :
  let called :=
    INFO_simulating (simulating_message (FeaturePayload.customer_id payload)) in
  (forall r, decide payload s = (inr r, s') ->
             log s' = log s ++ [called; INFO_decision r])
  /\ (forall e, decide payload s = (inl e, s') -> log s' = log s ++ [called]).
Proof.
  intros called. pose proof (decide_appends payload s) as Happ.
  split; intros res Hrun; rewrite Hrun in Happ; exact Happ.
Qed.

Lemma decide_log_witness :
  log (snd (decide heavy_payload startup))
  = [INFO_simulating "Simulating call to Model Serving for customer: cust_12345";
     INFO_decision heavy_response]
  /\ log (snd (decide text_tenure_payload startup))
  = [INFO_simulating "Simulating call to Model Serving for customer: cust_12345"].
Proof.
  split.
  - destruct (decide_log heavy_payload startup (snd (decide heavy_payload startup)))
      as (Hanswered & _).
    apply (Hanswered heavy_response). vm_compute. reflexivity.
  - destruct (decide_log text_tenure_payload startup
                (snd (decide text_tenure_payload startup))) as (_ & Hfailed).
    apply (Hfailed
             (HTTPException 500
                "Internal server error in decision engine: can't multiply sequence by non-int of type 'float'")).
    vm_compute. reflexivity.
Defined.

Lemma serve_cons (payload : FeaturePayload.t) (rest : list FeaturePayload.t) (s : state) :
  serve (payload :: rest) s
  = (fst (decide payload s) :: fst (serve rest (snd (decide payload s))),
     snd (serve rest (snd (decide payload s)))).
Proof.
  simpl. destruct (decide payload s) as [r s']. simpl.
  destruct (serve rest s') as [rs s'']. reflexivity.
Qed.

(** X7: requests do not influence one another: in a sequence of requests
    each one is answered as it would be if it came first. *)
Theorem serve_stateless (requests : list FeaturePayload.t) (s : state) :
  fst (serve requests s) = map (fun payload => fst (decide payload s)) requests.
Proof.
  revert s. induction requests as [|payload rest IH]; intros s; [reflexivity|].
  rewrite serve_cons. simpl. rewrite IH. f_equal.
  apply map_ext. intros p. apply decide_reads, keeps_decide.
Qed.

(** X8: the decisions in the log are the responses returned, one for one
    and in the order of the requests: no response goes unlogged and no
    decision is logged for a request that failed. *)
Theorem serve_logs_every_response (requests : list FeaturePayload.t) (s : state) :
  decisions (log (snd (serve requests s)))
  = decisions (log s) ++ successes (fst (serve requests s)).
Proof.
  revert s. induction requests as [|payload rest IH]; intros s.
  - simpl. rewrite app_nil_r. reflexivity.
  - rewrite serve_cons. simpl. rewrite IH, decide_appends.
    unfold decisions, successes. rewrite flat_map_app. simpl.
    destruct (fst (decide payload s)); simpl;
      rewrite <- ?app_assoc; reflexivity.
Qed.

(** X9: every request, answered or failed, leaves one record of the
    simulated call, with its customer's id, in the order of arrival. *)
Theorem serve_logs_every_call (requests : list FeaturePayload.t) (s : state) :
  simulations (log (snd (serve requests s)))
  = simulations (log s)
    ++ map (fun payload => simulating_message (FeaturePayload.customer_id payload))
         requests.
Proof.
  revert s. induction requests as [|payload rest IH]; intros s.
  - simpl. rewrite app_nil_r. reflexivity.
  - rewrite serve_cons. simpl. rewrite IH, decide_appends.
    unfold simulations. rewrite flat_map_app. simpl.
    destruct (fst (decide payload s)); simpl;
      rewrite <- ?app_assoc; reflexivity.
Qed.

(** ** Enumerations *)

(** X10: the values of the two enumerations identify their members: the
    lookup by value gives back the member a value came from, a string is
    accepted only if it is the value of the member found, and so distinct
    members have distinct values. *)
Theorem enum_value_round_trip :
  (forall a, RecommendedAction_of_value (RecommendedAction_value a) = Some a)
  /\ (forall v a, RecommendedAction_of_value v = Some a -> RecommendedAction_value a = v)
  /\ (forall a1 a2, RecommendedAction_value a1 = RecommendedAction_value a2 -> a1 = a2)
  /\ (forall c, ConfidenceLevel_of_value (ConfidenceLevel_value c) = Some c)
  /\ (forall v c, ConfidenceLevel_of_value v = Some c -> ConfidenceLevel_value c = v)
  /\ (forall c1 c2, ConfidenceLevel_value c1 = ConfidenceLevel_value c2 -> c1 = c2).
Proof.
  assert (Ha : forall a, RecommendedAction_of_value (RecommendedAction_value a) = Some a)
    by (intros []; reflexivity).
  assert (Hc : forall c, ConfidenceLevel_of_value (ConfidenceLevel_value c) = Some c)
    by (intros []; reflexivity).
  repeat split; try assumption.
  - intros v a. unfold RecommendedAction_of_value.
    repeat match goal with
           | |- context [String.eqb v ?w] =>
               destruct (String.eqb_spec v w) as [->|_];
               [intros [= <-]; reflexivity|]
           end.
    discriminate.
  - intros a1 a2 Heq. pose proof (Ha a1) as H1. rewrite Heq, Ha in H1. congruence.
  - intros v c. unfold ConfidenceLevel_of_value.
    repeat match goal with
           | |- context [String.eqb v ?w] =>
               destruct (String.eqb_spec v w) as [->|_];
               [intros [= <-]; reflexivity|]
           end.
    discriminate.
  - intros c1 c2 Heq. pose proof (Hc c1) as H1. rewrite Heq, Hc in H1. congruence.
Qed.

Lemma enum_value_round_trip_witness :
  RecommendedAction_value MONITOR_ACCOUNT = "Monitor_Account"
  /\ RecommendedAction_of_value "Monitor_Accounts" = None.
Proof.
  destruct enum_value_round_trip as (_ & Hvalue & _).
  split; [apply (Hvalue "Monitor_Account" MONITOR_ACCOUNT); reflexivity|reflexivity].
Defined.

(** ** The rule engine on other tables *)

(** X11: the rule engine looks a rule up only when it needs it.  Without
    "high_risk" in the table every call raises KeyError('high_risk').
    With it, a probability above its threshold gets the action and the
    confidence stored under "high_risk", and "medium_risk" is not looked
    at: it may be missing.  For the other probabilities a table without
    "medium_risk" raises KeyError('medium_risk').  The state is returned
    as it was in each case. *)
Theorem make_churn_decision_lookups (p : float) (s : state) :
  let table := CHURN_DECISION_THRESHOLDS s in
  (table !! "high_risk" = None ->
     make_churn_decision p s = (inl (KeyError "high_risk"), s))
  /\ (forall high, table !! "high_risk" = Some high ->
        gt p (threshold high) = true ->
        make_churn_decision p s = (inr (action high, confidence high), s))
  /\ (forall high, table !! "high_risk" = Some high ->
        gt p (threshold high) = false ->
        table !! "medium_risk" = None ->
        make_churn_decision p s = (inl (KeyError "medium_risk"), s))
  /\ (forall high medium, table !! "high_risk" = Some high ->
        gt p (threshold high) = false ->
        table !! "medium_risk" = Some medium ->
        make_churn_decision p s
        = (inr (if gt p (threshold medium)
                then (action medium, confidence medium)
                else (NO_ACTION, LOW)), s)).
Proof.
  intros table. unfold make_churn_decision, bind, load_thresholds, getitem.
  fold table. repeat split.
  - intros ->. reflexivity.
  - intros high Hhigh Hgt. rewrite Hhigh. simpl. rewrite Hgt. simpl.
    fold table. rewrite Hhigh. reflexivity.
  - intros high Hhigh Hgt Hmedium. rewrite Hhigh. simpl. rewrite Hgt. simpl.
    fold table. rewrite Hmedium. reflexivity.
  - intros high medium Hhigh Hgt Hmedium. rewrite Hhigh. simpl. rewrite Hgt. simpl.
    fold table. rewrite Hmedium. simpl.
    destruct (gt p (threshold medium)); simpl; [|reflexivity].
    fold table. rewrite Hmedium. reflexivity.
Qed.

Lemma make_churn_decision_lookups_witness :
  make_churn_decision lit_0_80 high_only = (inr (PROACTIVE_RETENTION, HIGH), high_only)
  /\ make_churn_decision lit_0_66 high_only = (inl (KeyError "medium_risk"), high_only)
  /\ make_churn_decision lit_0_66 (State ∅ []) = (inl (KeyError "high_risk"), State ∅ []).
Proof.
  split; [|split].
  - destruct (make_churn_decision_lookups lit_0_80 high_only) as (_ & Hhigh & _).
    apply (Hhigh (Rule lit_0_75 PROACTIVE_RETENTION HIGH)); reflexivity.
  - destruct (make_churn_decision_lookups lit_0_66 high_only) as (_ & _ & Hmedium & _).
    apply (Hmedium (Rule lit_0_75 PROACTIVE_RETENTION HIGH)); reflexivity.
  - destruct (make_churn_decision_lookups lit_0_66 (State ∅ [])) as (Hnone & _).
    apply Hnone. reflexivity.
Defined.

(** ** The form of ui.py in front of the endpoint *)

Lemma forallb_seqZ (f : Z -> bool) (a n : Z) :
  forallb f (seqZ a n) = true -> forall z, a <= z < a + n -> f z = true.
Proof.
  intros Hall z Hz. rewrite forallb_forall in Hall. apply Hall.
  apply list_elem_of_In, elem_of_seqZ. exact Hz.
Qed.

Lemma sliders_forall (f : Z -> Z -> bool) :
  sliders_forallb f = true ->
  forall tickets tenure,
    tickets_slider tickets -> tenure_slider tenure -> f tickets tenure = true.
Proof.
  unfold sliders_forallb, tickets_slider, tenure_slider.
  intros Hall tickets tenure Htickets Htenure.
  pose proof (forallb_seqZ _ 0 11 Hall tickets ltac:(lia)) as Hrow.
  apply (forallb_seqZ _ 1 72 Hrow tenure). lia.
Qed.

Lemma band_eqb_eq (b1 b2 : RecommendedAction * ConfidenceLevel) :
  band_eqb b1 b2 = true -> b1 = b2.
Proof. destruct b1 as [[] []], b2 as [[] []]; (reflexivity || discriminate). Qed.

Lemma as_double_int (n : Z) : int_fits n = true -> as_double (PyInt n) = Some (of_Z n).
Proof. unfold int_fits, as_double. destruct (of_Z n); (reflexivity || discriminate). Qed.

Lemma ui_features_tickets (monthly_charges : float) (tenure tickets failed : Z) :
  dict_get (ui_features monthly_charges tenure tickets failed)
    "support_tickets_last_30d" (PyInt 0) = PyInt tickets.
Proof.
  unfold dict_get, ui_features.
  rewrite !lookup_insert_ne by discriminate. rewrite lookup_insert_eq. reflexivity.
Qed.

Lemma ui_features_tenure (monthly_charges : float) (tenure tickets failed : Z) :
  dict_get (ui_features monthly_charges tenure tickets failed)
    "tenure_months" (PyInt 12) = PyInt tenure.
Proof.
  unfold dict_get, ui_features.
  rewrite !lookup_insert_ne by discriminate. rewrite lookup_insert_eq. reflexivity.
Qed.

(** A request of the form, whose two numbers fit a float. *)
Lemma ui_decide_run (customer_id : string) (monthly_charges : float)
    (tenure tickets failed : Z) (s : state) :
  CHURN_DECISION_THRESHOLDS s = startup_thresholds ->
  int_fits tickets = true -> int_fits tenure = true ->
  fst (decide (ui_payload customer_id monthly_charges tenure tickets failed) s)
  = inr (DecisionResponse.Build customer_id (heuristic tickets tenure)
           (fst (startup_band (heuristic tickets tenure)))
           (snd (startup_band (heuristic tickets tenure)))).
Proof.
  intros Htable Htickets Htenure. rewrite decide_run. cbv zeta.
  unfold ui_payload. simpl FeaturePayload.features.
  rewrite ui_features_tickets, ui_features_tenure.
  rewrite (as_double_int _ Htickets), (as_double_int _ Htenure).
  rewrite make_churn_decision_startup_band by exact Htable. reflexivity.
Qed.

Lemma sliders_fit (tickets tenure : Z) :
  tickets_slider tickets -> tenure_slider tenure ->
  int_fits tickets = true /\ int_fits tenure = true.
Proof.
  intros Htickets Htenure. apply andb_true_iff.
  apply (sliders_forall (fun t m => int_fits t && int_fits m));
    [vm_compute; reflexivity|exact Htickets|exact Htenure].
Qed.

(** X12: whatever the form submits is answered, never with an error, and
    the decision follows n = 20 * tickets + months: the retention offer
    for n > 75, monitoring for 50 < n <= 75, no action for n <= 50 - with
    one exception: at 3 tickets and 15 months, where n = 75 exactly, the
    float sum 3 * 0.2 + 15 * 0.01 comes out above 0.75 and the answer is
    the retention offer.  The charges, the failed payments and the
    customer id have no part in it. *)
Theorem ui_sliders_decision (customer_id : string) (monthly_charges : float)
    (tenure tickets failed : Z) (s : state) :
  CHURN_DECISION_THRESHOLDS s = startup_thresholds ->
  tenure_slider tenure -> tickets_slider tickets ->
  fst (decide (ui_payload customer_id monthly_charges tenure tickets failed) s)
  = inr (DecisionResponse.Build customer_id (heuristic tickets tenure)
           (fst (slider_band tickets tenure)) (snd (slider_band tickets tenure))).
Proof.
  intros Htable Htenure Htickets.
  destruct (sliders_fit tickets tenure Htickets Htenure) as [Hfit1 Hfit2].
  rewrite (ui_decide_run _ _ _ _ _ _ Htable Hfit1 Hfit2).
  assert (Hband : startup_band (heuristic tickets tenure) = slider_band tickets tenure).
  { apply band_eqb_eq.
    apply (sliders_forall
             (fun t m => band_eqb (startup_band (heuristic t m)) (slider_band t m)));
      [vm_compute; reflexivity|exact Htickets|exact Htenure]. }
  rewrite Hband. reflexivity.
Qed.

Lemma ui_sliders_decision_witness :
  fst (decide (ui_payload "cust_12345" lit_1_5 15 3 1) startup)
  = inr (DecisionResponse.Build "cust_12345"
           (S754_finite false 6755399441055745 (-53)) PROACTIVE_RETENTION HIGH)
  /\ fst (decide (ui_payload "cust_12345" lit_1_5 35 2 1) startup)
  = inr (DecisionResponse.Build "cust_12345" lit_0_75 MONITOR_ACCOUNT MEDIUM).
Proof.
  split.
  - apply (ui_sliders_decision "cust_12345" lit_1_5 15 3 1 startup);
      [reflexivity|unfold tenure_slider; lia|unfold tickets_slider; lia].
  - apply (ui_sliders_decision "cust_12345" lit_1_5 35 2 1 startup);
      [reflexivity|unfold tenure_slider; lia|unfold tickets_slider; lia].
Defined.

(** X13: the probability the form can be shown lies between 0.01 (no
    ticket, one month) and 2.7199999999999998 (ten tickets, 72 months),
    and it is above 1 - shown as more than 100% - exactly when
    20 * tickets + months exceeds 100, which five tickets always do. *)
Theorem ui_sliders_probability (customer_id : string) (monthly_charges : float)
    (tenure tickets failed : Z) (s : state) :
  CHURN_DECISION_THRESHOLDS s = startup_thresholds ->
  tenure_slider tenure -> tickets_slider tickets ->
  exists r,
    fst (decide (ui_payload customer_id monthly_charges tenure tickets failed) s) = inr r
    /\ le lit_0_01 (DecisionResponse.churn_probability r) = true
    /\ le (DecisionResponse.churn_probability r) lit_2_7199999999999998 = true
    /\ gt (DecisionResponse.churn_probability r) lit_1_0
       = (100 <? 20 * tickets + tenure)
    /\ (5 <= tickets -> gt (DecisionResponse.churn_probability r) lit_1_0 = true).
Proof.
  intros Htable Htenure Htickets.
  destruct (sliders_fit tickets tenure Htickets Htenure) as [Hfit1 Hfit2].
  eexists. split; [apply (ui_decide_run _ _ _ _ _ _ Htable Hfit1 Hfit2)|].
  simpl.
  pose proof (sliders_forall
    (fun t m => le lit_0_01 (heuristic t m)
                && le (heuristic t m) lit_2_7199999999999998
                && Bool.eqb (gt (heuristic t m) lit_1_0) (100 <? 20 * t + m))
    ltac:(vm_compute; reflexivity) tickets tenure Htickets Htenure) as Hcheck.
  apply andb_true_iff in Hcheck as [Hcheck Hover].
  apply andb_true_iff in Hcheck as [Hlow Hhigh].
  apply Bool.eqb_prop in Hover.
  repeat split; try assumption.
  intros Hfive. rewrite Hover. unfold tenure_slider in Htenure. apply Z.ltb_lt. lia.
Qed.

Lemma ui_sliders_probability_witness :
  exists r,
    fst (decide (ui_payload "cust_12345" lit_1_5 72 10 5) startup) = inr r
    /\ le lit_0_01 (DecisionResponse.churn_probability r) = true
    /\ le (DecisionResponse.churn_probability r) lit_2_7199999999999998 = true
    /\ gt (DecisionResponse.churn_probability r) lit_1_0 = true
    /\ (5 <= 10 -> gt (DecisionResponse.churn_probability r) lit_1_0 = true).
Proof.
  apply (ui_sliders_probability "cust_12345" lit_1_5 72 10 5 startup);
    [reflexivity|unfold tenure_slider; lia|unfold tickets_slider; lia].
Defined.

Lemma le_trans (x y z : float) : le x y = true -> le y z = true -> le x z = true.
Proof.
  unfold le, SFleb.
  destruct x as [[]|[]| |[] m1 e1], y as [[]|[]| |[] m2 e2],
           z as [[]|[]| |[] m3 e3];
    simpl; try discriminate; try reflexivity; intros H1 H2;
    repeat match goal with
    | H : context [Pos.compare_cont Eq ?a ?b] |- _ =>
        change (Pos.compare_cont Eq a b) with (Pos.compare a b) in H
    | |- context [Pos.compare_cont Eq ?a ?b] =>
        change (Pos.compare_cont Eq a b) with (Pos.compare a b)
    end;
    repeat match goal with
    | H : context [Z.compare ?a ?b] |- _ =>
        destruct (Z.compare_spec a b); simpl in H
    | |- context [Z.compare ?a ?b] =>
        destruct (Z.compare_spec a b); simpl
    | H : context [Pos.compare ?a ?b] |- _ =>
        destruct (Pos.compare_spec a b); simpl in H
    | |- context [Pos.compare ?a ?b] =>
        destruct (Pos.compare_spec a b); simpl
    end;
    try reflexivity; try discriminate; lia.
Qed.

Lemma startup_band_monotone (p1 p2 : float) :
  le p1 p2 = true ->
  (severity (fst (startup_band p1)) <= severity (fst (startup_band p2)))%nat.
Proof.
  intros Hle. unfold startup_band.
  destruct (gt p1 lit_0_75) eqn:Hhigh.
  - rewrite (gt_le_trans _ _ _ Hhigh Hle). simpl. lia.
  - destruct (gt p1 lit_0_50) eqn:Hmedium.
    + rewrite (gt_le_trans _ _ _ Hmedium Hle).
      destruct (gt p2 lit_0_75); simpl; lia.
    + destruct (gt p2 lit_0_75); [|destruct (gt p2 lit_0_50)]; simpl; lia.
Qed.

(** One step up on either slider does not lower the prediction. *)
Lemma heuristic_steps (tickets tenure : Z) :
  tickets_slider tickets -> tenure_slider tenure ->
  le (heuristic tickets tenure) (heuristic tickets tenure) = true
  /\ le (heuristic tickets tenure) (heuristic (tickets + 1) tenure) = true
  /\ le (heuristic tickets tenure) (heuristic tickets (tenure + 1)) = true.
Proof.
  intros Htickets Htenure.
  pose proof (sliders_forall
    (fun t m => le (heuristic t m) (heuristic t m)
                && le (heuristic t m) (heuristic (t + 1) m)
                && le (heuristic t m) (heuristic t (m + 1)))
    ltac:(vm_compute; reflexivity) tickets tenure Htickets Htenure) as Hcheck.
  apply andb_true_iff in Hcheck as [Hcheck Hm].
  apply andb_true_iff in Hcheck as [Hrefl Ht]. auto.
Qed.

Lemma heuristic_monotone_tenure (tickets tenure : Z) (d : nat) :
  tickets_slider tickets -> tenure_slider tenure ->
  tenure_slider (tenure + Z.of_nat d) ->
  le (heuristic tickets tenure) (heuristic tickets (tenure + Z.of_nat d)) = true.
Proof.
  intros Htickets Htenure. unfold tenure_slider in *.
  induction d as [|d IH]; intros Hd.
  - rewrite Z.add_0_r. apply heuristic_steps; assumption.
  - apply (le_trans _ (heuristic tickets (tenure + Z.of_nat d))); [apply IH; lia|].
    replace (tenure + Z.of_nat (S d)) with (tenure + Z.of_nat d + 1) by lia.
    apply heuristic_steps; [assumption|unfold tenure_slider; lia].
Qed.

Lemma heuristic_monotone_tickets (tickets tenure : Z) (d : nat) :
  tickets_slider tickets -> tenure_slider tenure ->
  tickets_slider (tickets + Z.of_nat d) ->
  le (heuristic tickets tenure) (heuristic (tickets + Z.of_nat d) tenure) = true.
Proof.
  intros Htickets Htenure. unfold tickets_slider in *.
  induction d as [|d IH]; intros Hd.
  - rewrite Z.add_0_r. apply heuristic_steps; assumption.
  - apply (le_trans _ (heuristic (tickets + Z.of_nat d) tenure)); [apply IH; lia|].
    replace (tickets + Z.of_nat (S d)) with (tickets + Z.of_nat d + 1) by lia.
    apply heuristic_steps; [unfold tickets_slider; lia|assumption].
Qed.

(** X14: on the form, moving a slider up never lowers the outcome: with
    at least as many tickets and at least as many months, the probability
    returned is at least as high and the action at least as severe. *)
Theorem ui_sliders_monotone (id1 id2 : string) (charges1 charges2 : float)
    (tenure1 tickets1 failed1 tenure2 tickets2 failed2 : Z) (s1 s2 : state) :
  CHURN_DECISION_THRESHOLDS s1 = startup_thresholds ->
  CHURN_DECISION_THRESHOLDS s2 = startup_thresholds ->
  tenure_slider tenure1 -> tickets_slider tickets1 ->
  tenure_slider tenure2 -> tickets_slider tickets2 ->
  tickets1 <= tickets2 -> tenure1 <= tenure2 ->
  exists r1 r2,
    fst (decide (ui_payload id1 charges1 tenure1 tickets1 failed1) s1) = inr r1
    /\ fst (decide (ui_payload id2 charges2 tenure2 tickets2 failed2) s2) = inr r2
    /\ le (DecisionResponse.churn_probability r1)
          (DecisionResponse.churn_probability r2) = true
    /\ (severity (DecisionResponse.recommended_action r1)
        <= severity (DecisionResponse.recommended_action r2))%nat.
Proof.
  intros Htable1 Htable2 Hm1 Ht1 Hm2 Ht2 Htickets Htenure.
  destruct (sliders_fit tickets1 tenure1 Ht1 Hm1) as [Hfit1 Hfit1'].
  destruct (sliders_fit tickets2 tenure2 Ht2 Hm2) as [Hfit2 Hfit2'].
  eexists _, _.
  split; [apply (ui_decide_run _ _ _ _ _ _ Htable1 Hfit1 Hfit1')|].
  split; [apply (ui_decide_run _ _ _ _ _ _ Htable2 Hfit2 Hfit2')|].
  simpl.
  assert (Hle : le (heuristic tickets1 tenure1) (heuristic tickets2 tenure2) = true).
  { apply (le_trans _ (heuristic tickets1 tenure2)).
    - pose proof (heuristic_monotone_tenure tickets1 tenure1
                    (Z.to_nat (tenure2 - tenure1)) Ht1 Hm1) as Hstep.
      replace (tenure1 + Z.of_nat (Z.to_nat (tenure2 - tenure1)))
        with tenure2 in Hstep by lia.
      apply Hstep, Hm2.
    - pose proof (heuristic_monotone_tickets tickets1 tenure2
                    (Z.to_nat (tickets2 - tickets1)) Ht1 Hm2) as Hstep.
      replace (tickets1 + Z.of_nat (Z.to_nat (tickets2 - tickets1)))
        with tickets2 in Hstep by lia.
      apply Hstep, Ht2. }
  split; [exact Hle|apply startup_band_monotone, Hle].
Qed.

Lemma ui_sliders_monotone_witness :
  exists r1 r2,
    fst (decide (ui_payload "a" lit_1_5 6 3 1) startup) = inr r1
    /\ fst (decide (ui_payload "b" lit_1_0 15 3 0) startup) = inr r2
    /\ le (DecisionResponse.churn_probability r1)
          (DecisionResponse.churn_probability r2) = true
    /\ (severity (DecisionResponse.recommended_action r1)
        <= severity (DecisionResponse.recommended_action r2))%nat.
Proof.
  apply (ui_sliders_monotone "a" "b" lit_1_5 lit_1_0 6 3 1 15 3 0 startup startup);
    try reflexivity; unfold tenure_slider, tickets_slider; lia.
Defined.

(** ** The action box of ui.py *)

Lemma prefix_spec (p s : string) :
  String.prefix p s = true <-> exists post, s = p +:+ post.
Proof.
  revert s. induction p as [|a p IH]; intros s.
  - destruct s; simpl; (split; [intros _; eexists; reflexivity|reflexivity]).
  - destruct s as [|b s]; simpl.
    + split; [discriminate|]. intros [post H]. discriminate H.
    + destruct (Ascii.ascii_dec a b) as [->|Hne].
      * rewrite IH. split; intros [post H]; exists post.
        -- rewrite H. reflexivity.
        -- injection H as H. exact H.
      * split; [discriminate|]. intros [post H]. injection H as Hab _.
        congruence.
Qed.

(** [str_contains] is the substring test. *)
Lemma str_contains_spec (needle hay : string) :
  str_contains needle hay = true
  <-> exists pre post, hay = pre +:+ needle +:+ post.
Proof.
  induction hay as [|c rest IH].
  - change (str_contains needle "") with (String.prefix needle "" || false).
    rewrite orb_false_r, prefix_spec. split.
    + intros [post H]. exists EmptyString, post. exact H.
    + intros (pre & post & H). destruct pre; [|discriminate H].
      exists post. exact H.
  - change (str_contains needle (String c rest))
      with (String.prefix needle (String c rest) || str_contains needle rest).
    rewrite orb_true_iff, prefix_spec, IH. split.
    + intros [[post H]|(pre & post & H)].
      * exists EmptyString, post. exact H.
      * exists (String c pre), post. rewrite H. reflexivity.
    + intros (pre & post & H). destruct pre as [|c' pre].
      * left. exists post. exact H.
      * right. injection H as _ H. exists pre, post. exact H.
Qed.

Lemma str_replace_char_length (old new : Ascii.ascii) (s : string) :
  String.length (str_replace_char old new s) = String.length s.
Proof. induction s as [|c s IH]; simpl; [reflexivity|]. rewrite IH. reflexivity. Qed.

(** After the replacement [old] occurs nowhere, unless it is [new]. *)
Lemma str_replace_char_gone (old new : Ascii.ascii) (s : string) :
  old <> new ->
  str_contains (String old EmptyString) (str_replace_char old new s) = false.
Proof.
  intros Hne. induction s as [|c s IH]; simpl; [reflexivity|].
  rewrite IH, orb_false_r.
  destruct (Ascii.eqb_spec c old) as [->|Hc];
    destruct (Ascii.ascii_dec old _) as [Heq|_]; try reflexivity; congruence.
Qed.

(** X15: which box the form shows for an action text.  The error box if
    the text has "Proactive_Retention" somewhere in it, else the warning
    box if it has "Monitor_Account", else the success box: this last one
    is what any other text gets, also the "N/A" that stands in when the
    response has no action.  The text shown is the action with every
    underscore turned into a space, of the same length. *)
Theorem action_box_cases (action : string) :
  let shown := str_replace_char underscore space action in
  let body := "**Action:** " +:+ shown in
  let has marker := exists pre post, action = pre +:+ marker +:+ post in
  (has "Proactive_Retention" -> action_box action = st_error body "🚨")
  /\ (~ has "Proactive_Retention" -> has "Monitor_Account" ->
      action_box action = st_warning body "⚠️")
  /\ (~ has "Proactive_Retention" -> ~ has "Monitor_Account" ->
      action_box action = st_success body "✅")
  /\ String.length shown = String.length action
  /\ str_contains "_" shown = false.
Proof.
  intros shown body has. unfold action_box. fold shown. fold body.
  assert (Hno : forall marker, ~ has marker -> str_contains marker action = false).
  { intros marker Hnot. destruct (str_contains marker action) eqn:Hc; [|reflexivity].
    apply str_contains_spec in Hc. contradiction. }
  split; [|split; [|split; [|split]]].
  - intros Hp. apply str_contains_spec in Hp. rewrite Hp. reflexivity.
  - intros Hp Hm. apply str_contains_spec in Hm. rewrite (Hno _ Hp), Hm. reflexivity.
  - intros Hp Hm. rewrite (Hno _ Hp), (Hno _ Hm). reflexivity.
  - apply str_replace_char_length.
  - apply (str_replace_char_gone underscore space). discriminate.
Qed.

Lemma action_box_cases_witness :
  action_box "Proactive_Retention_Offer"
  = st_error "**Action:** Proactive Retention Offer" "🚨"
  /\ action_box "N/A" = st_success "**Action:** N/A" "✅".
Proof.
  split.
  - destruct (action_box_cases "Proactive_Retention_Offer") as (Herror & _).
    apply Herror. exists "", "_Offer". reflexivity.
  - destruct (action_box_cases "N/A") as (_ & _ & Hsuccess & _).
    apply Hsuccess; intros Hhas; apply str_contains_spec in Hhas; discriminate Hhas.
Defined.

(** X16: the box follows the probability of the response shown: the error
    box with "Proactive Retention Offer" above 0.75, the warning box with
    "Monitor Account" above 0.50, the success box with "No Action Needed"
    otherwise; the three actions of the endpoint never fall into a box
    meant for another. *)
Theorem action_box_of_response
    (payload : FeaturePayload.t) (s s' : state) (r : DecisionResponse.t) :
  CHURN_DECISION_THRESHOLDS s = startup_thresholds ->
  decide payload s = (inr r, s') ->
  action_box (RecommendedAction_value (DecisionResponse.recommended_action r))
  = if gt (DecisionResponse.churn_probability r) lit_0_75
    then st_error "**Action:** Proactive Retention Offer" "🚨"
    else if gt (DecisionResponse.churn_probability r) lit_0_50
    then st_warning "**Action:** Monitor Account" "⚠️"
    else st_success "**Action:** No Action Needed" "✅".
Proof.
  intros Htable. rewrite decide_run. cbv zeta.
  destruct (as_double _) as [x|]; [|discriminate].
  destruct (as_double _) as [y|]; [|discriminate].
  rewrite make_churn_decision_startup_band by exact Htable. simpl.
  intros [= <- _]. simpl. unfold startup_band.
  destruct (gt _ lit_0_75); [|destruct (gt _ lit_0_50)]; reflexivity.
Qed.

Lemma action_box_of_response_witness :
  action_box (RecommendedAction_value (DecisionResponse.recommended_action heavy_response))
  = st_error "**Action:** Proactive Retention Offer" "🚨".
Proof.
  apply (action_box_of_response heavy_payload startup
           (snd (decide heavy_payload startup)) heavy_response);
    [reflexivity|vm_compute; reflexivity].
Defined.

(** ** The path set-up of pythonanywhere_wsgi.py *)

(** X17: after the set-up the project directory is on the module search
    path; running the set-up again changes nothing, and a path that has
    the directory already is left as it is. *)
Theorem wsgi_sys_path_idempotent (sys_path : list string) :
  project_home ∈ wsgi_sys_path sys_path
  /\ wsgi_sys_path (wsgi_sys_path sys_path) = wsgi_sys_path sys_path
  /\ (project_home ∈ sys_path -> wsgi_sys_path sys_path = sys_path).
Proof.
  assert (Hin : project_home ∈ wsgi_sys_path sys_path).
  { unfold wsgi_sys_path. case_bool_decide; [assumption|]. apply list_elem_of_here. }
  assert (Hfix : forall p, project_home ∈ p -> wsgi_sys_path p = p).
  { intros p Hp. unfold wsgi_sys_path. rewrite bool_decide_eq_true_2 by exact Hp.
    reflexivity. }
  split; [exact Hin|]. split; [apply Hfix, Hin|apply Hfix].
Qed.

Lemma wsgi_sys_path_idempotent_witness :
  wsgi_sys_path ["/usr/lib/python3"; "/home/praykar/biautomate"]
  = ["/usr/lib/python3"; "/home/praykar/biautomate"].
Proof.
  apply (wsgi_sys_path_idempotent ["/usr/lib/python3"; "/home/praykar/biautomate"]).
  apply list_elem_of_further, list_elem_of_here.
Defined.

(** X18: the set-up keeps every entry of the path, in its order, behind at
    most one new first entry: the directory goes to the front when it is
    missing, the entries are the old ones and the directory, and a path
    without repetitions stays without. *)
Theorem wsgi_sys_path_keeps_entries (sys_path : list string) :
  (project_home ∉ sys_path -> wsgi_sys_path sys_path = project_home :: sys_path)
  /\ sys_path `suffix_of` wsgi_sys_path sys_path
  /\ (forall entry, entry ∈ wsgi_sys_path sys_path
                    <-> entry = project_home \/ entry ∈ sys_path)
  /\ (NoDup sys_path -> NoDup (wsgi_sys_path sys_path)).
Proof.
  unfold wsgi_sys_path. case_bool_decide as Hin.
  - split; [intros Hnot; contradiction|]. split; [reflexivity|].
    split; [|trivial]. intros entry. split; [auto|].
    intros [->|H]; assumption.
  - split; [reflexivity|]. split; [apply suffix_cons_r; reflexivity|].
    split; [intros entry; apply elem_of_cons|].
    intros Hnodup. apply NoDup_cons. split; assumption.
Qed.

Lemma wsgi_sys_path_keeps_entries_witness :
  wsgi_sys_path ["/usr/lib/python3"]
  = ["/home/praykar/biautomate"; "/usr/lib/python3"]
  /\ NoDup (wsgi_sys_path ["/usr/lib/python3"]).
Proof.
  destruct (wsgi_sys_path_keeps_entries ["/usr/lib/python3"])
    as (Hfront & _ & _ & Hnodup).
  split.
  - apply Hfront. intros Hin. apply list_elem_of_singleton in Hin. discriminate Hin.
  - apply Hnodup, NoDup_singleton.
Defined.

(** ** The metric of ui.py *)

(** X19: for every position of the sliders the metric shows the whole
    percentage 20 * tickets + months with two zero decimals: the rounding
    noise of the float sum never reaches the screen.  At 3 tickets and 15
    months it therefore shows 75.00% next to the retention offer, which
    the rule engine gives only above 0.75. *)
Theorem ui_sliders_metric (customer_id : string) (monthly_charges : float)
    (tenure tickets failed : Z) (s : state) :
  CHURN_DECISION_THRESHOLDS s = startup_thresholds ->
  tenure_slider tenure -> tickets_slider tickets ->
  exists r,
    fst (decide (ui_payload customer_id monthly_charges tenure tickets failed) s) = inr r
    /\ format_percent (DecisionResponse.churn_probability r)
       = pretty (20 * tickets + tenure) +:+ ".00%".
Proof.
  intros Htable Htenure Htickets.
  destruct (sliders_fit tickets tenure Htickets Htenure) as [Hfit1 Hfit2].
  eexists. split; [apply (ui_decide_run _ _ _ _ _ _ Htable Hfit1 Hfit2)|].
  simpl. apply String.eqb_eq.
  apply (sliders_forall
           (fun t m => String.eqb (format_percent (heuristic t m))
                         (pretty (20 * t + m) +:+ ".00%")));
    [vm_compute; reflexivity|exact Htickets|exact Htenure].
Qed.

Lemma ui_sliders_metric_witness :
  exists r,
    fst (decide (ui_payload "cust_12345" lit_1_5 15 3 1) startup) = inr r
    /\ format_percent (DecisionResponse.churn_probability r) = "75.00%".
Proof.
  apply (ui_sliders_metric "cust_12345" lit_1_5 15 3 1 startup);
    [reflexivity|unfold tenure_slider; lia|unfold tickets_slider; lia].
Defined.
